(** * Organ-transplant hospital locator: geolocation, routing and navigation

    A shallow embedding of [geolocation.py] and [routing_service.py].

    Numbers.  A Python [float] that is neither an infinity nor a NaN is a
    rational number, so floats are embedded as [Q] and [+ - * /] are the
    exact rational operations (rounding of the last bit is idealised away).
    Python [int] is [Z].  [int(x)] on a float truncates toward zero
    ([py_int]); [round(x, n)] rounds to the nearest multiple of [10^-n],
    halves to the even neighbour ([py_round]).  Under [int(...)] the last
    bit can be worth a whole unit; module [Binary64] gives the functions
    that turn a distance into minutes and seconds in double precision, and
    what is said of the exact value of these integers is said there.

    Trigonometry.  [haversine_distance] is the only place where the source
    calls [math.sin], [math.cos], [math.asin] and [math.sqrt].  Module
    [GreatCircle] gives the formula over the real numbers.  The rest of the
    code only consumes the number it returns, so section [Services] takes
    that function as a variable of type [Q -> Q -> Q -> Q -> Q].

    Effects.  The services read the wall clock ([datetime.now()]) and the
    navigation service mutates a dictionary of sessions.  Both are threaded
    through a small state-and-exception monad [M]. *)

From Stdlib Require Import ZArith QArith Qround Qabs Qminmax Reals Lra Lia.
From Stdlib Require Import Ascii DecimalString DecimalPos DecimalN Sorted.
From Stdlib Require Lqa.
From Stdlib Require Floats.
From stdpp Require Import gmap strings list pretty sorting.

Set Warnings "-register-all,-inexact-float".
Set Default Proof Using "Type".

(** ** Python numerics *)

(** [int(x)] for a float [x]: the integer part, rounding toward zero. *)
Definition py_int (x : Q) : Z := Z.quot (Qnum x) (Zpos (Qden x)).

(** [round(x, ndigits)]: nearest multiple of [10^-ndigits], ties to even. *)
Definition py_round (x : Q) (ndigits : nat) : Q :=
  let scale := (10 ^ Z.of_nat ndigits)%Z in
  let scaled := (x * inject_Z scale)%Q in
  let lo := Qfloor scaled in
  let units :=
    match (scaled - inject_Z lo ?= 1 # 2)%Q with
    | Lt => lo
    | Gt => (lo + 1)%Z
    | Eq => if Z.even lo then lo else (lo + 1)%Z
    end in
  (inject_Z units / inject_Z scale)%Q.

(** [min(a, b)] on floats: Python returns [b] only when [b < a]. *)
Definition py_min (a b : Q) : Q := if Qlt_le_dec b a then b else a.

(** [max(a, b)] on floats: Python returns [b] only when [b > a]. *)
Definition py_max (a b : Q) : Q := if Qlt_le_dec a b then b else a.

(** The whole number of units of [10^-ndigits] nearest to [x], ties to the
    even one: the digits [round(x, ndigits)] keeps and the format [.2f]
    prints. *)
Definition round_units (x : Q) (ndigits : nat) : Z :=
  let scaled := (x * inject_Z (10 ^ Z.of_nat ndigits))%Q in
  let lo := Qfloor scaled in
  match (scaled - inject_Z lo ?= 1 # 2)%Q with
  | Lt => lo
  | Gt => (lo + 1)%Z
  | Eq => if Z.even lo then lo else (lo + 1)%Z
  end.

(** [list.sort(key=f)] on float keys: a stable sort.  An element is put in
    front of the first element of the already sorted tail whose key is not
    smaller, so elements with equal keys keep their input order. *)
Fixpoint sort_insert {A : Type} (key : A -> Q) (x : A) (l : list A) : list A :=
  match l with
  | [] => [x]
  | y :: t =>
      if Qle_bool (key x) (key y) then x :: y :: t
      else y :: sort_insert key x t
  end.

Fixpoint list_sort {A : Type} (key : A -> Q) (l : list A) : list A :=
  match l with
  | [] => []
  | x :: t => sort_insert key x (list_sort key t)
  end.

(** [list.sort(key=f, reverse=True)]: the list is reversed, sorted by the
    stable sort and reversed again, so that in the descending result
    elements with equal keys still keep their input order. *)
Definition list_sort_reverse {A : Type} (key : A -> Q) (l : list A) : list A :=
  rev (list_sort key (rev l)).

(** Descending by key. *)
Definition key_ge {A : Type} (key : A -> Q) (x y : A) : Prop :=
  (key y <= key x)%Q.

(** Ascending by key. *)
Definition key_le {A : Type} (key : A -> Q) (x y : A) : Prop :=
  (key x <= key y)%Q.

(** The elements whose key equals [k], in list order. *)
Definition with_key {A : Type} (key : A -> Q) (k : Q) (l : list A) : list A :=
  List.filter (fun x => Qeq_bool (key x) k) l.

(** ** geolocation.py: data *)

Record Location := mkLocation {
  latitude : Q;
  longitude : Q;
  address : option string
}.

Record DistanceResult := mkDistanceResult {
  distance_km : Q;
  distance_miles : Q;
  estimated_travel_time_minutes : Z;
  route_summary : option string
}.

(** Modelled from the spec: the [Hospital] row of [models.py], which is not
    among the sources.  The spec lists id, name, latitude and longitude; the
    code reads only [latitude] and [longitude]. *)
Record Hospital := mkHospital {
  hospital_id : Z;
  hospital_name : string;
  hospital_latitude : Q;
  hospital_longitude : Q
}.

(** Modelled from the spec: the [OrganAvailability] row of [models.py], which
    is not among the sources.  The spec lists blood_type, condition and
    quantity.  Both text columns may be empty ([None]); the scorer tests
    [blood_type] for truthiness before using it. *)
Record OrganAvailability := mkOrganAvailability {
  blood_type : option string;
  condition : option string;
  quantity : Z
}.

(** Truthiness of an [Optional[str]]: neither [None] nor the empty string. *)
Definition truthy (s : option string) : bool :=
  match s with
  | Some EmptyString => false
  | Some _ => true
  | None => false
  end.

(** ** The great-circle formula over the reals *)

Module GreatCircle.

Definition earth_radius_km : R := 6371%R.

(** [math.radians]. *)
Definition radians (x : R) : R := (x * (PI / 180))%R.

(** [GeolocationService.haversine_distance], with [math.sin], [math.cos],
    [math.asin] and [math.sqrt] read as the real functions. *)
Definition haversine_distance (lat1 lon1 lat2 lon2 : R) : R :=
  let lat1_rad := radians lat1 in
  let lon1_rad := radians lon1 in
  let lat2_rad := radians lat2 in
  let lon2_rad := radians lon2 in
  let dlat := (lat2_rad - lat1_rad)%R in
  let dlon := (lon2_rad - lon1_rad)%R in
  let a := (sin (dlat / 2) ^ 2
            + cos lat1_rad * cos lat2_rad * sin (dlon / 2) ^ 2)%R in
  let c := (2 * asin (sqrt a))%R in
  (earth_radius_km * c)%R.

End GreatCircle.

(** ** Returned dictionaries *)

(** The JSON-like values the services return: [dict] literals keep the order
    in which their keys are written. *)
Inductive Value :=
| VNone
| VBool (b : bool)
| VInt (n : Z)
| VFloat (x : Q)
| VStr (s : string)
| VList (l : list Value)
| VDict (d : list (string * Value)).

Fixpoint assoc_get (k : string) (d : list (string * Value)) : option Value :=
  match d with
  | [] => None
  | (k', v) :: rest => if String.eqb k k' then Some v else assoc_get k rest
  end.

(** [d.get(k)] / [d[k]] on a returned value; [None] when [d] is no dict or has
    no such key. *)
Definition dict_get (k : string) (v : Value) : option Value :=
  match v with
  | VDict d => assoc_get k d
  | _ => None
  end.

(** [k in d]. *)
Definition dict_has (k : string) (v : Value) : bool :=
  match dict_get k v with Some _ => true | None => false end.

(** [d[k1][k2]...] on a returned value. *)
Fixpoint dict_path (ks : list string) (v : Value) : option Value :=
  match ks with
  | [] => Some v
  | k :: rest =>
      match dict_get k v with
      | Some v' => dict_path rest v'
      | None => None
      end
  end.

(** The payload of a failed lookup. *)
Definition not_found : Value :=
  VDict [("error"%string, VStr "Navigation session not found")].

(** ** Time *)

(** A [datetime] is the number of microseconds since the epoch. *)
Abbreviation datetime := Z (only parsing).

(** [timedelta(minutes=n)], in microseconds. *)
Definition timedelta_minutes (n : Z) : Z := (n * 60000000)%Z.

(** [(b - a).total_seconds()]. *)
Definition total_seconds (delta : Z) : Q := (inject_Z delta / 1000000)%Q.

Definition digit_char (d : N) : ascii := ascii_of_N (48 + d).

(** The [width] low decimal digits of [m], least significant first. *)
Fixpoint low_digits (width : nat) (m : N) : list ascii :=
  match width with
  | O => []
  | S w => digit_char (m mod 10) :: low_digits w (m / 10)
  end.

Fixpoint drop_zeros (l : list ascii) : list ascii :=
  match l with
  | [] => []
  | c :: t => if Ascii.eqb c "0" then drop_zeros t else l
  end.

(** The fractional digits of a whole number of microseconds: six digits with
    the trailing zeros removed, and ["0"] when nothing is left. *)
Definition fraction_chars (micros : N) : list ascii :=
  match rev (drop_zeros (low_digits 6 micros)) with
  | [] => ["0"%char]
  | ds => ds
  end.

(** The characters an f-string gives for [datetime.timestamp()]: the float
    [t / 10^6] in its shortest form, for instance [1762196400.25] or
    [1762196400.0].  (For clock readings of the years 1971 to 2100 the
    shortest decimal that reads back as the same float is the one with the
    microseconds written out, which is what this prints.) *)
Definition timestamp_chars (t : datetime) : list ascii :=
  let m := Z.to_N (Z.abs t) in
  (if (t <? 0)%Z then ["-"%char] else [])
  ++ String.list_ascii_of_string
       (NilZero.string_of_uint (N.to_uint (m / 1000000)))
  ++ "."%char :: fraction_chars (m mod 1000000).

Definition timestamp_str (t : datetime) : string :=
  String.string_of_list_ascii (timestamp_chars t).


(** [f"{x:.2f}"]: the sign, the whole part, a point and two decimals of [x]
    rounded to hundredths. *)
Definition format_2f (x : Q) : string :=
  let units := Z.to_N (round_units (Qabs x) 2) in
  String.string_of_list_ascii
    ((if Qlt_le_dec x 0 then ["-"%char] else [])
     ++ String.list_ascii_of_string
          (NilZero.string_of_uint (N.to_uint (units / 100)))
     ++ "."%char :: rev (low_digits 2 (units mod 100))).

(** ** routing_service.py: data *)

Record RouteStep := mkRouteStep {
  instruction : string;
  distance_meters : Q;
  duration_seconds : Z;
  step_start_location : Q * Q;
  step_end_location : Q * Q
}.

Record Route := mkRoute {
  start_location : Q * Q;
  end_location : Q * Q;
  total_distance_km : Q;
  total_duration_minutes : Z;
  steps : list RouteStep;
  transport_mode : string;
  estimated_arrival : datetime
}.

(** A navigation session: the dictionary [start_navigation] builds.  The
    keys [last_update], [current_position] and [ended_at] are absent until
    [update_navigation] / [end_navigation] set them. *)
Record NavigationSession := mkNavigationSession {
  id : string;
  user_id : string;
  route : Route;
  current_step : Z;
  started_at : datetime;
  status : string;
  last_update : option datetime;
  current_position : option (Q * Q);
  ended_at : option datetime
}.

(** ** State and exceptions *)

(** What the services can see and change: how often the clock has been read,
    and [NavigationService.active_navigations]. *)
Record World := mkWorld {
  ticks : nat;
  active_navigations : gmap string NavigationSession
}.

Inductive Exn :=
| KeyError (k : string)
| IndexError.

Inductive Outcome (A : Type) :=
| Return (a : A)
| Raise (e : Exn).
Arguments Return {A} a.
Arguments Raise {A} e.

Definition M (A : Type) : Type := World -> Outcome A * World.

Definition ret {A : Type} (a : A) : M A := fun w => (Return a, w).

Definition bind {A B : Type} (c : M A) (k : A -> M B) : M B :=
  fun w =>
    match c w with
    | (Return a, w') => k a w'
    | (Raise e, w') => (Raise e, w')
    end.

Definition raise {A : Type} (e : Exn) : M A := fun w => (Raise e, w).

Notation "'do' x <- c ; k" := (bind c (fun x => k))
  (at level 10, x name, c at level 100, k at level 200, only parsing).

(** [self.active_navigations] *)
Definition get_navigations : M (gmap string NavigationSession) :=
  fun w => (Return (active_navigations w), w).

(** [self.active_navigations[k]]: [KeyError] when [k] is no key. *)
Definition lookup_session (k : string) : M NavigationSession :=
  fun w =>
    match active_navigations w !! k with
    | Some s => (Return s, w)
    | None => (Raise (KeyError k), w)
    end.

(** [self.active_navigations[k] = s], and an assignment to a key of the
    session stored under [k]. *)
Definition store_session (k : string) (s : NavigationSession) : M unit :=
  fun w =>
    (Return tt,
     {| ticks := ticks w;
        active_navigations := <[k := s]> (active_navigations w) |}).

(** [l[i]]: [IndexError] when out of range. *)
Definition list_index {A : Type} (l : list A) (i : nat) : M A :=
  match l !! i with
  | Some x => ret x
  | None => raise IndexError
  end.

(** What [get_multiple_routes] can raise: an exception of [M], or the
    [TypeError] of a subscript on a value that is no dictionary and of
    [math.radians] on a coordinate that is no number. *)
Inductive RankingExn :=
| Raised (e : Exn)
| TypeError.

(** [v[k]] for a string [k]. *)
Definition subscript (v : Value) (k : string) : Value + RankingExn :=
  match v with
  | VDict d =>
      match assoc_get k d with
      | Some x => inl x
      | None => inr (Raised (KeyError k))
      end
  | _ => inr TypeError
  end.

(** The float a value stands for where a real number is required: a float,
    an int or a bool. *)
Definition float_of_value (v : Value) : option Q :=
  match v with
  | VFloat x => Some x
  | VInt n => Some (inject_Z n)
  | VBool b => Some (if b then 1 else 0)%Q
  | _ => None
  end.

(** The world after one reading of the clock. *)
Definition tick (w : World) : World :=
  {| ticks := S (ticks w); active_navigations := active_navigations w |}.

(** The world after [n] readings of the clock. *)
Definition advance (n : nat) (w : World) : World :=
  {| ticks := n + ticks w; active_navigations := active_navigations w |}.

(** ** The services *)

Section Services.

Local Open Scope Q_scope.

(** [GeolocationService.haversine_distance] as a function on floats: the
    value of [GreatCircle.haversine_distance] rounded to a float. *)
Variable haversine_distance : Q -> Q -> Q -> Q -> Q.

(** The wall clock: [clock n] is what the [n]-th call of [datetime.now()]
    returns.  Nothing is assumed about it, not even that it advances. *)
Variable clock : nat -> datetime.

(** [datetime.isoformat()]. *)
Variable isoformat : datetime -> string.

(** [datetime.now()] *)
Definition now : M datetime :=
  fun w =>
    (Return (clock (ticks w)),
     {| ticks := S (ticks w); active_navigations := active_navigations w |}).

(** *** geolocation.py: GeolocationService *)

(** In exact arithmetic; [Binary64.calculate_distance] has the minutes as
    double precision gives them. *)
Definition calculate_distance (location1 location2 : Location) : DistanceResult :=
  let distance_km := haversine_distance
                       (latitude location1) (longitude location1)
                       (latitude location2) (longitude location2) in
  let distance_miles := distance_km * 0.621371 in
  let estimated_travel_time := py_int ((distance_km / 50) * 60) in
  {| distance_km := distance_km;
     distance_miles := distance_miles;
     estimated_travel_time_minutes := estimated_travel_time;
     route_summary := None |}.

(** One turn of the [for hospital in hospitals] loop: [nearby_hospitals]
    before and after. *)
Definition nearby_step (user_location : Location) (max_distance_km : Q)
    (nearby_hospitals : list (Hospital * DistanceResult)) (hospital : Hospital)
    : list (Hospital * DistanceResult) :=
  let hospital_location :=
    mkLocation (hospital_latitude hospital) (hospital_longitude hospital) None in
  let distance_result := calculate_distance user_location hospital_location in
  if Qle_bool (distance_km distance_result) max_distance_km
  then nearby_hospitals ++ [(hospital, distance_result)]
  else nearby_hospitals.

Definition find_nearest_hospitals (user_latitude user_longitude : Q)
    (hospitals : list Hospital) (max_distance_km : Q)
    : list (Hospital * DistanceResult) :=
  let user_location := mkLocation user_latitude user_longitude None in
  let nearby_hospitals :=
    fold_left (nearby_step user_location max_distance_km) hospitals [] in
  list_sort (fun x => distance_km (snd x)) nearby_hospitals.

(** **** Vocabulary of the filter's specification (not in the source) *)

(** A hospital paired with its distance from the user. *)
Definition measured (user_latitude user_longitude : Q) (h : Hospital)
    : Hospital * DistanceResult :=
  (h, calculate_distance
        (mkLocation user_latitude user_longitude None)
        (mkLocation (hospital_latitude h) (hospital_longitude h) None)).

(** The measured hospitals no farther than [max_distance_km], in input order. *)
Definition within_radius (user_latitude user_longitude : Q)
    (hospitals : list Hospital) (max_distance_km : Q)
    : list (Hospital * DistanceResult) :=
  List.filter (fun p => Qle_bool (distance_km (snd p)) max_distance_km)
    (map (measured user_latitude user_longitude) hospitals).

Definition get_coordinates_from_address (address : string) : option Location :=
  None.

Definition speed_kmh : gmap string Q :=
  list_to_map
    [("driving"%string, 50); ("walking"%string, 5); ("cycling"%string, 15);
     ("public_transport"%string, 30)].

Definition calculate_route_time (start_lat start_lon end_lat end_lon : Q)
    (transport_mode : string) : option DistanceResult :=
  let distance_km := haversine_distance start_lat start_lon end_lat end_lon in
  let speed := default 50 (speed_kmh !! transport_mode) in
  let travel_time_minutes := py_int ((distance_km / speed) * 60) in
  Some {| distance_km := distance_km;
          distance_miles := distance_km * 0.621371;
          estimated_travel_time_minutes := travel_time_minutes;
          route_summary := None |}.

(** *** geolocation.py: OrganSearchService *)

Definition search_organs_nearby (user_latitude user_longitude : Q)
    (organ_name : string) (user_blood_type : option string)
    (max_distance_km : Q) : list Value :=
  let results := [] in
  results.

Definition compatible_pairs : gmap string (list string) :=
  list_to_map
    [("O-",  ["O-"]);
     ("O+",  ["O-"; "O+"]);
     ("A-",  ["O-"; "A-"]);
     ("A+",  ["O-"; "O+"; "A-"; "A+"]);
     ("B-",  ["O-"; "B-"]);
     ("B+",  ["O-"; "O+"; "B-"; "B+"]);
     ("AB-", ["O-"; "A-"; "B-"; "AB-"]);
     ("AB+", ["O-"; "O+"; "A-"; "A+"; "B-"; "B+"; "AB-"; "AB+"])]%string.

Definition _is_blood_type_compatible (recipient donor : string) : bool :=
  bool_decide (donor ∈ default [] (compatible_pairs !! recipient)).

Definition condition_scores : gmap string Q :=
  list_to_map
    [("excellent"%string, 0.2); ("good"%string, 0.1); ("fair"%string, 0.05)].

Definition get_organ_availability_score (organ_availability : OrganAvailability)
    (user_blood_type : option string) : Q :=
  let score := 0.5 in
  let score :=
    if truthy user_blood_type && truthy (blood_type organ_availability) then
      match user_blood_type, blood_type organ_availability with
      | Some recipient, Some donor =>
          if String.eqb recipient donor then score + 0.3
          else if _is_blood_type_compatible recipient donor then score + 0.2
          else score
      | _, _ => score
      end
    else score in
  let score :=
    score + match condition organ_availability with
            | Some c => default 0 (condition_scores !! c)
            | None => 0
            end in
  py_min score 1.0.

(** **** Vocabulary of the scorer's specification (not in the source) *)

(** The eight ABO/Rh blood types. *)
Definition blood_types : list string :=
  ["O-"; "O+"; "A-"; "A+"; "B-"; "B+"; "AB-"; "AB+"]%string.

(** The donor types a recipient accepts, as the specification's table lists
    them; a recipient type outside the table accepts nothing. *)
Definition accepts (recipient : string) : list string :=
  (if String.eqb recipient "O-" then ["O-"]
   else if String.eqb recipient "O+" then ["O-"; "O+"]
   else if String.eqb recipient "A-" then ["O-"; "A-"]
   else if String.eqb recipient "A+" then ["O-"; "O+"; "A-"; "A+"]
   else if String.eqb recipient "B-" then ["O-"; "B-"]
   else if String.eqb recipient "B+" then ["O-"; "O+"; "B-"; "B+"]
   else if String.eqb recipient "AB-" then ["O-"; "A-"; "B-"; "AB-"]
   else if String.eqb recipient "AB+" then blood_types
   else [])%string.

(** Every (recipient, donor) pair of the table. *)
Definition compatible_list : list (string * string) :=
  flat_map (fun r => map (fun d => (r, d)) (accepts r)) blood_types.

(** The blood-type bonus as the specification words it: 0.3 when recipient
    and donor type are equal, else 0.2 when the table accepts the pair, else
    nothing.  Without a recipient type there is nothing to compare. *)
Definition blood_bonus (recipient : option string) (donor : string) : Q :=
  match recipient with
  | Some r =>
      if String.eqb r donor then 0.3
      else if bool_decide (donor ∈ accepts r) then 0.2
      else 0
  | None => 0
  end.

(** The condition bonus as the specification words it. *)
Definition condition_bonus (c : option string) : Q :=
  match c with
  | Some c =>
      if String.eqb c "excellent" then 0.2
      else if String.eqb c "good" then 0.1
      else if String.eqb c "fair" then 0.05
      else 0
  | None => 0
  end.

(** *** routing_service.py: RoutingService *)

(** In exact arithmetic; [Binary64._create_simplified_route_steps] has the
    seconds as double precision gives them. *)
Definition _create_simplified_route_steps
    (start_lat start_lon end_lat end_lon total_distance_km : Q) : list RouteStep :=
  let steps := [] in
  let mid_lat := (start_lat + end_lat) / 2 in
  let mid_lon := (start_lon + end_lon) / 2 in
  let step1_distance := total_distance_km * 0.5 * 1000 in
  let step1_duration := py_int (step1_distance / 1000 * 60) in
  let steps :=
    steps ++ [ {| instruction := "Start navigation to destination";
                  distance_meters := step1_distance;
                  duration_seconds := step1_duration;
                  step_start_location := (start_lat, start_lon);
                  step_end_location := (mid_lat, mid_lon) |} ] in
  let step2_distance := total_distance_km * 0.5 * 1000 in
  let step2_duration := py_int (step2_distance / 1000 * 60) in
  let steps :=
    steps ++ [ {| instruction := "Continue to hospital destination";
                  distance_meters := step2_distance;
                  duration_seconds := step2_duration;
                  step_start_location := (mid_lat, mid_lon);
                  step_end_location := (end_lat, end_lon) |} ] in
  steps.

Definition get_route (start_lat start_lon end_lat end_lon : Q)
    (transport_mode : string) : M Route :=
  let start_location := mkLocation start_lat start_lon None in
  let end_location := mkLocation end_lat end_lon None in
  let distance_result := calculate_distance start_location end_location in
  let steps :=
    _create_simplified_route_steps start_lat start_lon end_lat end_lon
      (distance_km distance_result) in
  do current_time <- now;
  let estimated_arrival :=
    (current_time
     + timedelta_minutes (estimated_travel_time_minutes distance_result))%Z in
  ret {| start_location := (start_lat, start_lon);
         end_location := (end_lat, end_lon);
         total_distance_km := distance_km distance_result;
         total_duration_minutes := estimated_travel_time_minutes distance_result;
         steps := steps;
         transport_mode := transport_mode;
         estimated_arrival := estimated_arrival |}.

(** [{"latitude": p[0], "longitude": p[1]}] *)
Definition point_dict (p : Q * Q) : Value :=
  VDict [("latitude"%string, VFloat (fst p)); ("longitude"%string, VFloat (snd p))].

(** One entry of the ["steps"] list of [get_emergency_route]. *)
Definition emergency_step_dict (step : RouteStep) : Value :=
  VDict
    [("instruction"%string, VStr (instruction step));
     ("distance_meters"%string, VFloat (distance_meters step));
     ("duration_seconds"%string,
        VInt (py_int (inject_Z (duration_seconds step) * 0.8)));
     ("start_location"%string, point_dict (step_start_location step));
     ("end_location"%string, point_dict (step_end_location step))].

Definition get_emergency_route (user_lat user_lon hospital_lat hospital_lon : Q)
    : M Value :=
  do route <- get_route user_lat user_lon hospital_lat hospital_lon "emergency";
  let emergency_duration :=
    py_int (inject_Z (total_duration_minutes route) * 0.8) in
  do t <- now;
  let emergency_arrival := (t + timedelta_minutes emergency_duration)%Z in
  ret (VDict
    [("route"%string, VDict
        [("start"%string, point_dict (start_location route));
         ("end"%string, point_dict (end_location route));
         ("total_distance_km"%string, VFloat (py_round (total_distance_km route) 2));
         ("total_duration_minutes"%string, VInt emergency_duration);
         ("transport_mode"%string, VStr "emergency");
         ("estimated_arrival"%string, VStr (isoformat emergency_arrival));
         ("is_emergency"%string, VBool true)]);
     ("emergency_info"%string, VDict
        [("priority"%string, VStr "HIGH");
         ("estimated_time_saved"%string,
            VStr (pretty (total_duration_minutes route - emergency_duration)%Z
                  +:+ " minutes"));
         ("recommendations"%string, VList
            [VStr "Use emergency lanes if available";
             VStr "Contact hospital in advance";
             VStr "Prepare medical documents";
             VStr "Have emergency contacts ready"])]);
     ("steps"%string, VList (map emergency_step_dict (steps route)))]).

(** One entry of the ["steps"] list of [get_directions_to_hospital]. *)
Definition step_dict (step : RouteStep) : Value :=
  VDict
    [("instruction"%string, VStr (instruction step));
     ("distance_meters"%string, VFloat (distance_meters step));
     ("duration_seconds"%string, VInt (duration_seconds step));
     ("start_location"%string, point_dict (step_start_location step));
     ("end_location"%string, point_dict (step_end_location step))].

(** The dictionary [get_directions_to_hospital] returns for [route]. *)
Definition directions_dict (route : Route) : Value :=
  VDict
    [("route"%string, VDict
        [("start"%string, point_dict (start_location route));
         ("end"%string, point_dict (end_location route));
         ("total_distance_km"%string, VFloat (py_round (total_distance_km route) 2));
         ("total_duration_minutes"%string, VInt (total_duration_minutes route));
         ("transport_mode"%string, VStr (transport_mode route));
         ("estimated_arrival"%string, VStr (isoformat (estimated_arrival route)))]);
     ("steps"%string, VList (map step_dict (steps route)));
     ("summary"%string, VDict
        [("total_steps"%string, VInt (Z.of_nat (length (steps route))));
         ("estimated_travel_time"%string,
            VStr (pretty (total_duration_minutes route) +:+ " minutes"));
         ("estimated_distance"%string,
            VStr (format_2f (total_distance_km route) +:+ " km"))])].

Definition get_directions_to_hospital
    (user_lat user_lon hospital_lat hospital_lon : Q) (transport_mode : string)
    : M Value :=
  do route <- get_route user_lat user_lon hospital_lat hospital_lon transport_mode;
  ret (directions_dict route).

Definition _calculate_route_priority (route : Route) (hospital : Value) : Q :=
  let distance_factor := py_max 0 (1 - (total_distance_km route / 500)) in
  let time_factor :=
    py_max 0 (1 - (inject_Z (total_duration_minutes route) / 300)) in
  let hospital_factor := 0.5 in
  let priority_score :=
    distance_factor * 0.4 + time_factor * 0.4 + hospital_factor * 0.2 in
  priority_score.

(** The [route_info] dictionary of one hospital. *)
Definition route_info_dict (hospital : Value) (route : Route) : Value :=
  VDict
    [("hospital"%string, hospital);
     ("route"%string, VDict
        [("total_distance_km"%string, VFloat (py_round (total_distance_km route) 2));
         ("total_duration_minutes"%string, VInt (total_duration_minutes route));
         ("estimated_arrival"%string, VStr (isoformat (estimated_arrival route)))]);
     ("priority_score"%string, VFloat (_calculate_route_priority route hospital))].

(** The [for hospital in hospitals] loop of [get_multiple_routes]: [routes]
    is the list built so far.  The two subscripts are evaluated before
    [get_route] is called, and [haversine_distance] converts the
    coordinates before [get_route] reads the clock. *)
Fixpoint collect_routes (user_lat user_lon : Q) (hospitals : list Value)
    (routes : list Value) (w : World) : (list Value + RankingExn) * World :=
  match hospitals with
  | [] => (inl routes, w)
  | hospital :: rest =>
      match subscript hospital "latitude" with
      | inr e => (inr e, w)
      | inl lat =>
          match subscript hospital "longitude" with
          | inr e => (inr e, w)
          | inl lon =>
              match float_of_value lat, float_of_value lon with
              | Some hospital_lat, Some hospital_lon =>
                  match get_route user_lat user_lon hospital_lat hospital_lon
                          "driving" w with
                  | (Return route, w') =>
                      collect_routes user_lat user_lon rest
                        (routes ++ [route_info_dict hospital route]) w'
                  | (Raise e, w') => (inr (Raised e), w')
                  end
              | _, _ => (inr TypeError, w)
              end
          end
      end
  end.

(** [x["priority_score"]] of a [route_info]. *)
Definition priority_score_of (route_info : Value) : Q :=
  match dict_get "priority_score" route_info with
  | Some (VFloat p) => p
  | _ => 0
  end.

Definition get_multiple_routes (user_lat user_lon : Q) (hospitals : list Value)
    (w : World) : (list Value + RankingExn) * World :=
  match collect_routes user_lat user_lon hospitals [] w with
  | (inl routes, w') => (inl (list_sort_reverse priority_score_of routes), w')
  | (inr e, w') => (inr e, w')
  end.

(** **** Vocabulary for the statements about routes (not in the source) *)

(** The route [get_route] builds when the clock reads [t]. *)
Definition built_route (a b c d : Q) (mode : string) (t : datetime) : Route :=
  {| start_location := (a, b);
     end_location := (c, d);
     total_distance_km := haversine_distance a b c d;
     total_duration_minutes := py_int (haversine_distance a b c d / 50 * 60);
     steps := _create_simplified_route_steps a b c d
                (haversine_distance a b c d);
     transport_mode := mode;
     estimated_arrival :=
       (t + timedelta_minutes
              (py_int (haversine_distance a b c d / 50 * 60)))%Z |}.

(** What reading the two coordinates of a hospital dictionary gives: the
    position, or the exception of the first step that fails. *)
Definition read_position (hospital : Value) : (Q * Q) + RankingExn :=
  match subscript hospital "latitude" with
  | inr e => inr e
  | inl lat =>
      match subscript hospital "longitude" with
      | inr e => inr e
      | inl lon =>
          match float_of_value lat, float_of_value lon with
          | Some x, Some y => inl (x, y)
          | _, _ => inr TypeError
          end
      end
  end.

(** The [route_info] of a hospital at position [pos] whose route was built
    when the clock read [t]. *)
Definition ranked_entry (user_lat user_lon : Q) (hospital : Value)
    (pos : Q * Q) (t : datetime) : Value :=
  route_info_dict hospital
    (built_route user_lat user_lon (fst pos) (snd pos) "driving" t).

(** The [route_info]s of hospitals with known positions, the first built at
    the [n]-th reading of the clock, the next at the following one, and so
    on. *)
Fixpoint ranked_entries (user_lat user_lon : Q)
    (hospitals : list (Value * (Q * Q))) (n : nat) : list Value :=
  match hospitals with
  | [] => []
  | (hospital, pos) :: rest =>
      ranked_entry user_lat user_lon hospital pos (clock n)
      :: ranked_entries user_lat user_lon rest (S n)
  end.

(** *** routing_service.py: NavigationService *)

(** [f"nav_{user_id}_{datetime.now().timestamp()}"] for the clock reading [t]. *)
Definition navigation_id_of (user_id : string) (t : datetime) : string :=
  ("nav_" +:+ user_id +:+ "_" +:+ timestamp_str t)%string.

Definition start_navigation (user_id : string)
    (start_lat start_lon end_lat end_lon : Q) (transport_mode : string)
    : M Value :=
  do t <- now;
  let navigation_id := navigation_id_of user_id t in
  do route <- get_route start_lat start_lon end_lat end_lon transport_mode;
  do started <- now;
  let navigation_session :=
    {| id := navigation_id;
       user_id := user_id;
       route := route;
       current_step := 0;
       started_at := started;
       status := "active";
       last_update := None;
       current_position := None;
       ended_at := None |} in
  do _ <- store_session navigation_id navigation_session;
  do first <- list_index (steps route) 0;
  ret (VDict
    [("navigation_id"%string, VStr navigation_id);
     ("route"%string, VDict
        [("total_distance_km"%string, VFloat (total_distance_km route));
         ("total_duration_minutes"%string, VInt (total_duration_minutes route));
         ("estimated_arrival"%string, VStr (isoformat (estimated_arrival route)))]);
     ("current_step"%string, VDict
        [("instruction"%string, VStr (instruction first));
         ("distance_meters"%string, VFloat (distance_meters first));
         ("duration_seconds"%string, VInt (duration_seconds first))]);
     ("status"%string, VStr "started")]).

Definition update_navigation (navigation_id : string)
    (current_lat current_lon : Q) : M Value :=
  do navigations <- get_navigations;
  if bool_decide (navigations !! navigation_id = None) then
    ret (VDict [("error"%string, VStr "Navigation session not found")])
  else
    do session <- lookup_session navigation_id;
    let route := route session in
    let current_location := mkLocation current_lat current_lon None in
    let destination :=
      mkLocation (fst (end_location route)) (snd (end_location route)) None in
    let remaining_distance := calculate_distance current_location destination in
    do t <- now;
    let session :=
      {| id := id session;
         user_id := user_id session;
         route := route;
         current_step := current_step session;
         started_at := started_at session;
         status := status session;
         last_update := Some t;
         current_position := Some (current_lat, current_lon);
         ended_at := ended_at session |} in
    do _ <- store_session navigation_id session;
    ret (VDict
      [("navigation_id"%string, VStr navigation_id);
       ("remaining_distance_km"%string,
          VFloat (py_round (distance_km remaining_distance) 2));
       ("estimated_time_remaining_minutes"%string,
          VInt (estimated_travel_time_minutes remaining_distance));
       ("current_step"%string, VInt (current_step session));
       ("status"%string, VStr "active")]).

Definition end_navigation (navigation_id : string) : M Value :=
  do navigations <- get_navigations;
  if bool_decide (navigations !! navigation_id = None) then
    ret (VDict [("error"%string, VStr "Navigation session not found")])
  else
    do session <- lookup_session navigation_id;
    do t <- now;
    let session :=
      {| id := id session;
         user_id := user_id session;
         route := route session;
         current_step := current_step session;
         started_at := started_at session;
         status := "completed";
         last_update := last_update session;
         current_position := current_position session;
         ended_at := Some t |} in
    do _ <- store_session navigation_id session;
    let elapsed := (t - started_at session)%Z in
    ret (VDict
      [("navigation_id"%string, VStr navigation_id);
       ("status"%string, VStr "completed");
       ("duration_minutes"%string, VInt (py_int (total_seconds elapsed / 60)))]).

(** **** The sessions the three operations leave in the table *)

(** The session [start_navigation] stores when called in world [w]. *)
Definition started_session (user_id : string) (a b c d : Q) (mode : string)
    (w : World) : NavigationSession :=
  {| id := navigation_id_of user_id (clock (ticks w));
     user_id := user_id;
     route :=
       {| start_location := (a, b);
          end_location := (c, d);
          total_distance_km := haversine_distance a b c d;
          total_duration_minutes := py_int (haversine_distance a b c d / 50 * 60);
          steps := _create_simplified_route_steps a b c d
                     (haversine_distance a b c d);
          transport_mode := mode;
          estimated_arrival :=
            (clock (S (ticks w))
             + timedelta_minutes
                 (py_int (haversine_distance a b c d / 50 * 60)))%Z |};
     current_step := 0;
     started_at := clock (S (S (ticks w)));
     status := "active";
     last_update := None;
     current_position := None;
     ended_at := None |}.

(** The session [update_navigation] leaves behind. *)
Definition updated_session (s : NavigationSession) (t : datetime)
    (position : Q * Q) : NavigationSession :=
  {| id := id s;
     user_id := user_id s;
     route := route s;
     current_step := current_step s;
     started_at := started_at s;
     status := status s;
     last_update := Some t;
     current_position := Some position;
     ended_at := ended_at s |}.

(** The session [end_navigation] leaves behind. *)
Definition ended_session (s : NavigationSession) (t : datetime)
    : NavigationSession :=
  {| id := id s;
     user_id := user_id s;
     route := route s;
     current_step := current_step s;
     started_at := started_at s;
     status := "completed";
     last_update := last_update s;
     current_position := current_position s;
     ended_at := Some t |}.

End Services.

(** ** Double precision

    Where a float goes through [int(...)], the last bit decides the
    integer: [int(16650.0 / 1000 * 60)] is 998 although
    16650 / 1000 * 60 = 999, because the quotient is rounded to the
    nearest double before it is multiplied.  This module redoes the
    functions that produce integers from distances,
    [calculate_distance], [_create_simplified_route_steps] and [get_route],
    with Python's floats as what they are, IEEE 754 binary64 numbers with
    every operation rounded to nearest, ties to even: Rocq's primitive
    floats. *)
Module Binary64.

Import Floats.PrimFloat Floats.SpecFloat Floats.FloatOps.

(** What [int(x)] raises for an infinity and for a NaN. *)
Inductive ConversionError :=
  | OverflowError
  | ValueError.

(** [int(x)]: a finite float is [m * 2^e] up to sign, and [int] drops the
    bits of [m] below the binary point. *)
Definition py_int (x : float) : Z + ConversionError :=
  match Prim2SF x with
  | S754_zero _ => inl 0%Z
  | S754_finite s m e =>
      let n := Z.shiftl (Zpos m) e in
      inl (if s then (- n)%Z else n)
  | S754_infinity _ => inr OverflowError
  | S754_nan => inr ValueError
  end.

(** The rational number a finite float stands for (0 for the others). *)
Definition value (x : float) : Q :=
  match Prim2SF x with
  | S754_finite s m e =>
      let magnitude :=
        match e with
        | Z0 => inject_Z (Zpos m)
        | Zpos p => inject_Z (Zpos m * 2 ^ Zpos p)
        | Zneg p => Zpos m # 2 ^ p
        end in
      if s then Qopp magnitude else magnitude
  | _ => 0%Q
  end.

Record Location := mkLocation {
  latitude : float;
  longitude : float;
  address : option string
}.

Record DistanceResult := mkDistanceResult {
  distance_km : float;
  distance_miles : float;
  estimated_travel_time_minutes : Z;
  route_summary : option string
}.

Record RouteStep := mkRouteStep {
  instruction : string;
  distance_meters : float;
  duration_seconds : Z;
  step_start_location : float * float;
  step_end_location : float * float
}.

Record Route := mkRoute {
  start_location : float * float;
  end_location : float * float;
  total_distance_km : float;
  total_duration_minutes : Z;
  steps : list RouteStep;
  transport_mode : string;
  estimated_arrival : datetime
}.

Section Services.

Local Open Scope float_scope.

Variable haversine_distance : float -> float -> float -> float -> float.
Variable clock : nat -> datetime.

Definition calculate_distance (location1 location2 : Location)
    : DistanceResult + ConversionError :=
  let distance_km := haversine_distance
                       (latitude location1) (longitude location1)
                       (latitude location2) (longitude location2) in
  let distance_miles := distance_km * 0.621371 in
  match py_int ((distance_km / 50) * 60) with
  | inr e => inr e
  | inl estimated_travel_time =>
      inl {| distance_km := distance_km;
             distance_miles := distance_miles;
             estimated_travel_time_minutes := estimated_travel_time;
             route_summary := None |}
  end.

Definition _create_simplified_route_steps
    (start_lat start_lon end_lat end_lon total_distance_km : float)
    : list RouteStep + ConversionError :=
  let steps := [] in
  let mid_lat := (start_lat + end_lat) / 2 in
  let mid_lon := (start_lon + end_lon) / 2 in
  let step1_distance := total_distance_km * 0.5 * 1000 in
  match py_int (step1_distance / 1000 * 60) with
  | inr e => inr e
  | inl step1_duration =>
      let steps :=
        steps ++ [ {| instruction := "Start navigation to destination";
                      distance_meters := step1_distance;
                      duration_seconds := step1_duration;
                      step_start_location := (start_lat, start_lon);
                      step_end_location := (mid_lat, mid_lon) |} ] in
      let step2_distance := total_distance_km * 0.5 * 1000 in
      match py_int (step2_distance / 1000 * 60) with
      | inr e => inr e
      | inl step2_duration =>
          let steps :=
            steps ++ [ {| instruction := "Continue to hospital destination";
                          distance_meters := step2_distance;
                          duration_seconds := step2_duration;
                          step_start_location := (mid_lat, mid_lon);
                          step_end_location := (end_lat, end_lon) |} ] in
          inl steps
      end
  end.

(** An exception raised on the way leaves before [datetime.now()] is
    reached. *)
Definition get_route (start_lat start_lon end_lat end_lon : float)
    (transport_mode : string) (w : World) : (Route + ConversionError) * World :=
  let start_location := mkLocation start_lat start_lon None in
  let end_location := mkLocation end_lat end_lon None in
  match calculate_distance start_location end_location with
  | inr e => (inr e, w)
  | inl distance_result =>
      match _create_simplified_route_steps start_lat start_lon end_lat end_lon
              (distance_km distance_result) with
      | inr e => (inr e, w)
      | inl steps =>
          let current_time := clock (ticks w) in
          let estimated_arrival :=
            (current_time
             + timedelta_minutes
                 (estimated_travel_time_minutes distance_result))%Z in
          (inl {| start_location := (start_lat, start_lon);
                  end_location := (end_lat, end_lon);
                  total_distance_km := distance_km distance_result;
                  total_duration_minutes :=
                    estimated_travel_time_minutes distance_result;
                  steps := steps;
                  transport_mode := transport_mode;
                  estimated_arrival := estimated_arrival |},
           tick w)
      end
  end.

End Services.

(** A stand-in for [haversine_distance] between two points of the equator,
    where the great circle is the equator itself: the radius times the
    difference of the longitudes in radians, [math.radians(x)] being
    [x * (pi / 180)]. *)
Definition equator_distance (lat1 lon1 lat2 lon2 : float) : float :=
  (6371 * abs (lon2 * 0.017453292519943295 - lon1 * 0.017453292519943295))%float.

End Binary64.

(** ** Fixtures for the worked examples *)

(** A stand-in for [haversine_distance] where a concrete number is needed:
    111.195 km per degree of latitude plus 111.195 km per degree of
    longitude.  Between two points of the equator, and between two points of
    one meridian, this is the great-circle distance to within a metre per
    degree.  Like the great-circle distance it is never negative, it is
    symmetric, and it is zero from a point to itself. *)
Definition grid_distance (lat1 lon1 lat2 lon2 : Q) : Q :=
  ((111195 # 1000) * (Qabs (lat2 - lat1) + Qabs (lon2 - lon1)))%Q.

(** A clock that advances one millisecond per reading, and one that is too
    coarse to advance between readings. *)
Definition ticking_clock (n : nat) : datetime :=
  (1762196400250000 + 1000 * Z.of_nat n)%Z.


(** A stand-in for [datetime.isoformat]: the count of microseconds. *)
Definition epoch_format (t : datetime) : string := pretty t.

Definition empty_world : World := {| ticks := 0; active_navigations := ∅ |}.

(** The world after user [u1] started a navigation along the equator. *)
Definition world_started : World :=
  snd (start_navigation grid_distance ticking_clock epoch_format
         "u1" 0 0 0 1 "driving" empty_world).

(** ... and after that navigation was ended. *)
Definition world_ended : World :=
  snd (end_navigation ticking_clock "nav_u1_1762196400.25" world_started).

(** Three hospital dictionaries on the equator, one, six and three degrees
    east of the origin, as [get_multiple_routes] receives them. *)
Definition hospital_dict (name : string) (lat lon : Q) : Value :=
  VDict [("name"%string, VStr name);
         ("latitude"%string, VFloat lat);
         ("longitude"%string, VFloat lon)].

Definition sample_hospitals : list Value :=
  [hospital_dict "far" 0 6; hospital_dict "near" 0 1; hospital_dict "middle" 0 3].

(** * Properties *)

(** ** Great-circle distance *)

Section GreatCircleFacts.

Local Open Scope R_scope.

Lemma sin_half_difference (x y : R) :
  sin ((x - y) / 2) ^ 2 = sin ((y - x) / 2) ^ 2.
Proof.
  replace ((x - y) / 2) with (- ((y - x) / 2)) by lra.
  rewrite sin_neg. ring.
Qed.


(** C6: the great-circle distance is symmetric in its two points. *)
Theorem haversine_distance_symmetric (lat1 lon1 lat2 lon2 : R) :
  GreatCircle.haversine_distance lat1 lon1 lat2 lon2
  = GreatCircle.haversine_distance lat2 lon2 lat1 lon1.
Proof.
  unfold GreatCircle.haversine_distance. cbv zeta.
  rewrite (sin_half_difference (GreatCircle.radians lat2) (GreatCircle.radians lat1)).
  rewrite (sin_half_difference (GreatCircle.radians lon2) (GreatCircle.radians lon1)).
  rewrite (Rmult_comm (cos (GreatCircle.radians lat1))).
  reflexivity.
Qed.


(** The distance from a point to itself is zero. *)
Lemma haversine_distance_self (lat lon : R) :
  GreatCircle.haversine_distance lat lon lat lon = 0.
Proof.
  unfold GreatCircle.haversine_distance. cbv zeta.
  unfold Rminus. rewrite !Rplus_opp_r.
  replace (0 / 2) with 0 by lra. rewrite sin_0.
  replace (0 ^ 2 + cos (GreatCircle.radians lat) * cos (GreatCircle.radians lat) * 0 ^ 2)
    with 0 by ring.
  rewrite sqrt_0, asin_0. ring.
Qed.

End GreatCircleFacts.

(** ** Python numerics *)

Lemma py_int_floor (x : Q) : (0 <= x)%Q -> py_int x = Qfloor x.
Proof.
  destruct x as [n d]. unfold Qle, py_int, Qfloor. simpl.
  intros Hn. rewrite Z.mul_1_r in Hn.
  apply Z.quot_div_nonneg; lia.
Qed.

Lemma py_int_nonneg (x : Q) : (0 <= x)%Q -> (0 <= py_int x)%Z.
Proof.
  intros Hx. rewrite py_int_floor by exact Hx.
  replace 0%Z with (Qfloor 0) by reflexivity.
  apply Qfloor_resp_le, Hx.
Qed.

Lemma py_int_inject_Z (n : Z) : py_int (inject_Z n) = n.
Proof. unfold py_int. simpl. apply Z.quot_1_r. Qed.

Lemma py_min_le_r (a b : Q) : (py_min a b <= b)%Q.
Proof.
  unfold py_min. destruct (Qlt_le_dec b a); [apply Qle_refl | assumption].
Qed.

Lemma py_min_Qmin (a b : Q) : (py_min a b == Qmin b a)%Q.
Proof.
  unfold py_min. destruct (Qlt_le_dec b a) as [Hlt | Hle].
  - symmetry. apply Q.min_l. apply Qlt_le_weak, Hlt.
  - symmetry. apply Q.min_r. exact Hle.
Qed.

(** ** The stable sort *)

Section Sorting.

Context {A : Type} (key : A -> Q).

Lemma sort_insert_perm (x : A) (l : list A) : sort_insert key x l ≡ₚ x :: l.
Proof.
  induction l as [| y t IH]; simpl; [reflexivity |].
  destruct (Qle_bool (key x) (key y)); [reflexivity |].
  rewrite IH. apply perm_swap.
Qed.

Lemma list_sort_perm (l : list A) : list_sort key l ≡ₚ l.
Proof.
  induction l as [| x t IH]; simpl; [reflexivity |].
  rewrite sort_insert_perm. now rewrite IH.
Qed.

Lemma sort_insert_sorted (x : A) (l : list A) :
  StronglySorted (key_le key) l -> StronglySorted (key_le key) (sort_insert key x l).
Proof.
  induction 1 as [| y t Ht IH Hy]; simpl.
  - repeat constructor.
  - destruct (Qle_bool (key x) (key y)) eqn:Hxy.
    + apply Qle_bool_iff in Hxy.
      constructor; [constructor; assumption |].
      constructor; [exact Hxy |].
      eapply Forall_impl; [exact Hy |].
      intros z Hz. unfold key_le in *. eapply Qle_trans; eassumption.
    + constructor; [exact IH |].
      rewrite sort_insert_perm. constructor; [| exact Hy].
      unfold key_le. apply Qlt_le_weak, Qnot_le_lt.
      intros Hle. apply Qle_bool_iff in Hle. congruence.
Qed.

Lemma list_sort_sorted (l : list A) : StronglySorted (key_le key) (list_sort key l).
Proof.
  induction l as [| x t IH]; simpl; [constructor |].
  apply sort_insert_sorted, IH.
Qed.

(** Insertion moves [x] only past elements with a strictly smaller key, so
    the sublist of any one key is undisturbed. *)
Lemma sort_insert_with_key (k : Q) (x : A) (l : list A) :
  with_key key k (sort_insert key x l) = with_key key k (x :: l).
Proof.
  induction l as [| y t IH]; [reflexivity |].
  cbn [sort_insert].
  destruct (Qle_bool (key x) (key y)) eqn:Hxy; [reflexivity |].
  unfold with_key in *. cbn [List.filter] in *. rewrite IH.
  destruct (Qeq_bool (key x) k) eqn:Hx, (Qeq_bool (key y) k) eqn:Hy;
    try reflexivity.
  apply Qeq_bool_iff in Hx, Hy.
  assert (Hle : Qle_bool (key x) (key y) = true); [| congruence].
  apply Qle_bool_iff. rewrite Hx, Hy. apply Qle_refl.
Qed.

Lemma list_sort_with_key (k : Q) (l : list A) :
  with_key key k (list_sort key l) = with_key key k l.
Proof.
  induction l as [| x t IH]; [reflexivity |].
  cbn [list_sort]. rewrite sort_insert_with_key.
  unfold with_key in *. cbn [List.filter]. now rewrite IH.
Qed.

End Sorting.

(** ** Hospital proximity filter *)

Section ProximityFacts.

Local Open Scope Q_scope.

Variable haversine_distance : Q -> Q -> Q -> Q -> Q.

Local Abbreviation calculate_distance := (calculate_distance haversine_distance).
Local Abbreviation nearby_step := (nearby_step haversine_distance).
Local Abbreviation find_nearest_hospitals :=
  (find_nearest_hospitals haversine_distance).
Local Abbreviation measured := (measured haversine_distance).
Local Abbreviation within_radius := (within_radius haversine_distance).

(** The loop of [find_nearest_hospitals] appends exactly the hospitals within
    the radius, in the order it meets them. *)
Lemma nearby_loop (ulat ulon max_km : Q) (hospitals : list Hospital)
    (acc : list (Hospital * DistanceResult)) :
  fold_left (nearby_step (mkLocation ulat ulon None) max_km) hospitals acc
  = acc ++ within_radius ulat ulon hospitals max_km.
Proof.
  revert acc. induction hospitals as [| h t IH]; intros acc.
  - unfold within_radius. simpl. now rewrite app_nil_r.
  - cbn [fold_left]. rewrite IH. unfold within_radius.
    cbn [map List.filter]. unfold nearby_step at 1.
    fold (measured ulat ulon h). cbn [snd measured].
    destruct (Qle_bool _ max_km); [| reflexivity].
    now rewrite <- app_assoc.
Qed.

Lemma find_nearest_hospitals_eq (ulat ulon max_km : Q) (hospitals : list Hospital) :
  find_nearest_hospitals ulat ulon hospitals max_km
  = list_sort (fun x => distance_km (snd x))
      (within_radius ulat ulon hospitals max_km).
Proof.
  unfold find_nearest_hospitals. now rewrite nearby_loop.
Qed.

Lemma within_radius_elem (ulat ulon max_km : Q) (hospitals : list Hospital)
    (p : Hospital * DistanceResult) :
  p ∈ within_radius ulat ulon hospitals max_km
  <-> exists h, h ∈ hospitals /\ p = measured ulat ulon h
                /\ distance_km (snd p) <= max_km.
Proof.
  unfold within_radius. rewrite list_elem_of_In, filter_In, in_map_iff.
  rewrite Qle_bool_iff. split.
  - intros [(h & <- & Hin) Hle]. exists h.
    rewrite list_elem_of_In. auto.
  - intros (h & Hin & -> & Hle). split; [| exact Hle].
    exists h. rewrite <- list_elem_of_In. auto.
Qed.

(** C1: [find_nearest_hospitals] returns exactly the (hospital, distance)
    pairs with [distance_km <= max_distance_km] (same elements, same
    multiplicities), ascending by [distance_km], pairs of equal distance in
    their input order; it returns the empty list for an empty input and when
    no hospital is within the radius. *)
Theorem find_nearest_hospitals_spec (ulat ulon max_km : Q)
    (hospitals : list Hospital) :
  let result := find_nearest_hospitals ulat ulon hospitals max_km in
  result ≡ₚ within_radius ulat ulon hospitals max_km
  /\ (forall p, p ∈ result <->
        exists h, h ∈ hospitals /\ p = measured ulat ulon h
                  /\ distance_km (snd p) <= max_km)
  /\ StronglySorted (key_le (fun x => distance_km (snd x))) result
  /\ (forall k, with_key (fun x => distance_km (snd x)) k result
                = with_key (fun x => distance_km (snd x)) k
                    (within_radius ulat ulon hospitals max_km))
  /\ find_nearest_hospitals ulat ulon [] max_km = []
  /\ ((forall h, h ∈ hospitals ->
         ~ distance_km (snd (measured ulat ulon h)) <= max_km) ->
      result = []).
Proof.
  intros result. subst result. rewrite find_nearest_hospitals_eq.
  split; [apply list_sort_perm |].
  split.
  { intros p. rewrite <- within_radius_elem.
    now rewrite (list_sort_perm _ (within_radius ulat ulon hospitals max_km)). }
  split; [apply list_sort_sorted |].
  split; [intros k; apply list_sort_with_key |].
  split; [reflexivity |].
  intros Hfar.
  assert (Hnil : within_radius ulat ulon hospitals max_km = []).
  { destruct (within_radius ulat ulon hospitals max_km) as [| p l] eqn:E;
      [reflexivity |].
    assert (Hp : p ∈ within_radius ulat ulon hospitals max_km)
      by (rewrite E; left).
    apply within_radius_elem in Hp as (h & Hin & -> & Hle).
    destruct (Hfar h Hin Hle). }
  now rewrite Hnil.
Qed.

End ProximityFacts.

(** ** Compatibility scorer *)

Section ScorerFacts.

Local Open Scope Q_scope.

Lemma condition_scores_get (c : string) :
  default 0 (condition_scores !! c) = condition_bonus (Some c).
Proof.
  unfold condition_bonus, condition_scores. cbn [list_to_map foldr].
  rewrite !lookup_insert, lookup_empty. cbn [fst snd].
  repeat case_decide; subst; try reflexivity.
  repeat match goal with
         | |- context [String.eqb ?a ?b] =>
             destruct (String.eqb_spec a b); try congruence
         end.
  reflexivity.
Qed.

Lemma compatible_pairs_get (recipient : string) :
  default [] (compatible_pairs !! recipient) = accepts recipient.
Proof.
  unfold accepts, compatible_pairs. cbn [list_to_map foldr].
  rewrite !lookup_insert, lookup_empty. cbn [fst snd].
  repeat case_decide; subst; try reflexivity.
  repeat match goal with
         | |- context [String.eqb ?a ?b] =>
             destruct (String.eqb_spec a b); try congruence
         end.
  reflexivity.
Qed.

(** The code's table is the specification's table. *)
Lemma is_blood_type_compatible_table (recipient donor : string) :
  _is_blood_type_compatible recipient donor
  = bool_decide (donor ∈ accepts recipient).
Proof.
  unfold _is_blood_type_compatible. now rewrite compatible_pairs_get.
Qed.

Lemma is_blood_type_compatible_accepts (recipient donor : string) :
  _is_blood_type_compatible recipient donor = true <-> donor ∈ accepts recipient.
Proof.
  rewrite is_blood_type_compatible_table. apply bool_decide_eq_true.
Qed.

Lemma O_neg_accepts (donor : string) :
  _is_blood_type_compatible "O-" donor = true <-> donor = "O-"%string.
Proof.
  rewrite is_blood_type_compatible_accepts. cbn. apply list_elem_of_singleton.
Qed.

Lemma AB_pos_accepts (donor : string) :
  donor ∈ blood_types -> _is_blood_type_compatible "AB+" donor = true.
Proof.
  intros Hin. apply is_blood_type_compatible_accepts. exact Hin.
Qed.

(** Every score the scorer can produce, before the clamp: the base 0.5, plus
    one of the three blood bonuses, plus one of the four condition bonuses. *)
Lemma score_formula (oa : OrganAvailability) (recipient : option string)
    (donor : string) :
  blood_type oa = Some donor -> donor <> ""%string ->
  get_organ_availability_score oa recipient
  = py_min ((if truthy recipient
             then match recipient with
                  | Some r =>
                      if String.eqb r donor then 0.5 + 0.3
                      else if _is_blood_type_compatible r donor then 0.5 + 0.2
                      else 0.5
                  | None => 0.5
                  end
             else 0.5)
            + condition_bonus (condition oa)) 1.0.
Proof.
  intros Hd Hne. unfold get_organ_availability_score. rewrite Hd.
  assert (Ht : truthy (Some donor) = true)
    by (destruct donor; [congruence | reflexivity]).
  rewrite Ht, andb_true_r.
  replace (match condition oa with
           | Some c => default 0 (condition_scores !! c)
           | None => 0
           end) with (condition_bonus (condition oa))
    by (destruct (condition oa); [symmetry; apply condition_scores_get | reflexivity]).
  destruct recipient as [r |]; reflexivity.
Qed.

Lemma condition_bonus_nonneg (c : option string) : 0 <= condition_bonus c.
Proof.
  unfold condition_bonus. destruct c as [c |]; [| discriminate].
  repeat match goal with
         | |- context [String.eqb ?a ?b] => destruct (String.eqb a b)
         end; discriminate.
Qed.

Lemma py_min_ge (z a b : Q) : z <= a -> z <= b -> z <= py_min a b.
Proof. intros Ha Hb. unfold py_min. destruct (Qlt_le_dec b a); assumption. Qed.

(** The score is at least the base score and at most 1, whatever the record
    and the recipient type are. *)
Lemma score_range (oa : OrganAvailability) (recipient : option string) :
  0.5 <= get_organ_availability_score oa recipient
  /\ get_organ_availability_score oa recipient <= 1.
Proof.
  unfold get_organ_availability_score.
  split; [| eapply Qle_trans; [apply py_min_le_r | discriminate]].
  apply py_min_ge; [| discriminate].
  set (c := match condition oa with
            | Some c => default 0 (condition_scores !! c)
            | None => 0
            end).
  assert (Hc : 0 <= c).
  { subst c. destruct (condition oa) as [c |] eqn:E; [| discriminate].
    rewrite condition_scores_get. apply condition_bonus_nonneg. }
  set (b := if truthy recipient && truthy (blood_type oa) then _ else _).
  assert (Hb : 0.5 <= b).
  { subst b. destruct (truthy recipient && truthy (blood_type oa));
      [| discriminate].
    destruct recipient as [r |], (blood_type oa) as [d |]; try discriminate.
    destruct (String.eqb r d); [discriminate |].
    destruct (_is_blood_type_compatible r d); discriminate. }
  rewrite <- (Qplus_0_r 0.5). apply Qplus_le_compat; assumption.
Qed.

(** C2: for a record that carries a blood type, the score is
    [min(1.0, 0.5 + blood_bonus + condition_bonus)] with the blood bonus 0.3
    on equal types, else 0.2 on a pair the ABO/Rh table accepts, else 0, and
    the condition bonus 0.2 / 0.1 / 0.05 / 0; the score lies in [0, 1];
    recipient O- accepts only donor O-, recipient AB+ accepts all eight
    types. *)
Theorem organ_availability_score_spec (oa : OrganAvailability)
    (recipient : option string) (donor : string) :
  blood_type oa = Some donor -> donor <> ""%string ->
  get_organ_availability_score oa recipient
    == Qmin 1 (0.5 + blood_bonus recipient donor + condition_bonus (condition oa))
  /\ 0 <= get_organ_availability_score oa recipient <= 1
  /\ (forall d, _is_blood_type_compatible "O-" d = true <-> d = "O-"%string)
  /\ (forall d, d ∈ blood_types -> _is_blood_type_compatible "AB+" d = true).
Proof.
  intros Hd Hne. split; [| split; [| split]].
  - rewrite (score_formula oa recipient donor Hd Hne), py_min_Qmin.
    apply Q.min_compat; [reflexivity |].
    apply Qplus_comp; [| reflexivity].
    unfold blood_bonus. destruct recipient as [r |]; [| reflexivity].
    destruct (String.eqb_spec r ""%string) as [-> | Hr].
    + cbn [truthy]. destruct (String.eqb_spec ""%string donor) as [E | _];
        [congruence |].
      rewrite bool_decide_eq_false_2; [reflexivity |].
      cbn. apply not_elem_of_nil.
    + assert (Ht : truthy (Some r) = true)
        by (destruct r; [congruence | reflexivity]).
      rewrite Ht, is_blood_type_compatible_table.
      destruct (String.eqb r donor); [reflexivity |].
      destruct (bool_decide (donor ∈ accepts r)); reflexivity.
  - destruct (score_range oa recipient) as [Hlo Hhi]. split; [| exact Hhi].
    eapply Qle_trans; [| exact Hlo]. discriminate.
  - apply O_neg_accepts.
  - apply AB_pos_accepts.
Qed.

End ScorerFacts.

(** ** Route synthesizer *)

Lemma Qdiv_nonneg (x y : Q) : (0 <= x -> 0 < y -> 0 <= x / y)%Q.
Proof.
  intros Hx Hy. apply Qle_shift_div_l; [exact Hy |]. now rewrite Qmult_0_l.
Qed.

(** [int(n * 0.8)] for a whole number [n >= 0] is [floor(0.8 n)], and it is
    never more than [n]. *)
Lemma scaled_duration (n : Z) :
  (0 <= n)%Z ->
  py_int (inject_Z n * 0.8) = Qfloor (0.8 * inject_Z n)
  /\ (0 <= Qfloor (0.8 * inject_Z n) <= n)%Z.
Proof.
  intros Hn.
  assert (Hq : (0 <= inject_Z n)%Q).
  { change (inject_Z 0 <= inject_Z n)%Q. rewrite <- Zle_Qle. exact Hn. }
  assert (H0 : (0 <= 0.8 * inject_Z n)%Q)
    by (apply Qmult_le_0_compat; [discriminate | exact Hq]).
  split; [| split].
  - rewrite py_int_floor by (rewrite Qmult_comm; exact H0).
    apply Qfloor_comp, Qmult_comm.
  - replace 0%Z with (Qfloor 0) by reflexivity. apply Qfloor_resp_le, H0.
  - rewrite <- (Qfloor_Z n) at 2. apply Qfloor_resp_le.
    rewrite <- (Qmult_1_l (inject_Z n)) at 2.
    apply Qmult_le_compat_r; [discriminate | exact Hq].
Qed.

Section RoutingFacts.

Local Open Scope Q_scope.

Variable haversine_distance : Q -> Q -> Q -> Q -> Q.
Variable clock : nat -> datetime.
Variable isoformat : datetime -> string.

Local Abbreviation calculate_distance := (calculate_distance haversine_distance).
Local Abbreviation calculate_route_time :=
  (calculate_route_time haversine_distance).
Local Abbreviation get_route := (get_route haversine_distance clock).
Local Abbreviation get_emergency_route :=
  (get_emergency_route haversine_distance clock isoformat).

(** [get_route] reads the clock once and returns; it never raises. *)
Lemma get_route_run (a b c d : Q) (mode : string) (w : World) :
  get_route a b c d mode w
  = (Return
       {| start_location := (a, b);
          end_location := (c, d);
          total_distance_km := haversine_distance a b c d;
          total_duration_minutes := py_int (haversine_distance a b c d / 50 * 60);
          steps := _create_simplified_route_steps a b c d
                     (haversine_distance a b c d);
          transport_mode := mode;
          estimated_arrival :=
            (clock (ticks w)
             + timedelta_minutes
                 (py_int (haversine_distance a b c d / 50 * 60)))%Z |},
     tick w).
Proof. reflexivity. Qed.

Lemma total_duration_nonneg (a b c d : Q) :
  0 <= haversine_distance a b c d ->
  (0 <= py_int (haversine_distance a b c d / 50 * 60))%Z.
Proof.
  intros Hd. apply py_int_nonneg.
  apply Qmult_le_0_compat; [| discriminate].
  apply Qdiv_nonneg; [exact Hd | reflexivity].
Qed.

Lemma step_duration_floor (dist : Q) :
  0 <= dist ->
  py_int (dist * 0.5 * 1000 / 1000 * 60) = Qfloor (dist * 0.5 * 1000 / 1000 * 60)
  /\ (0 <= py_int (dist * 0.5 * 1000 / 1000 * 60))%Z.
Proof.
  intros Hd.
  assert (H : 0 <= dist * 0.5 * 1000 / 1000 * 60).
  { apply Qmult_le_0_compat; [| discriminate].
    apply Qdiv_nonneg; [| reflexivity].
    repeat (apply Qmult_le_0_compat; [| discriminate]). exact Hd. }
  split; [apply py_int_floor, H | apply py_int_nonneg, H].
Qed.

(** The duration of a route is computed at 50 km/h whatever
    [transport_mode] is; only [calculate_route_time], which [get_route] does
    not call, looks the mode up in the speed table. *)
Lemma get_route_mode_independent (a b c d : Q) (mode : string) (w : World) :
  exists r,
    get_route a b c d mode w = (Return r, tick w)
    /\ transport_mode r = mode
    /\ total_duration_minutes r = py_int (haversine_distance a b c d / 50 * 60)
    /\ (estimated_travel_time_minutes <$> calculate_route_time a b c d mode)
       = Some (py_int (haversine_distance a b c d
                       / default 50 (speed_kmh !! mode) * 60)).
Proof.
  rewrite get_route_run. eexists. repeat (split; [reflexivity |]). reflexivity.
Qed.

(** C3: the emergency route reports [floor(0.8 * standard duration)] minutes,
    which is at most the standard duration; every step lasts
    [floor(0.8 * standard step duration)] seconds; the mode is ["emergency"];
    the time saved is the standard minus the emergency duration. *)
Theorem get_emergency_route_spec (a b c d : Q) (w0 w : World) :
  0 <= haversine_distance a b c d ->
  exists standard payload,
    get_route a b c d "driving" w0 = (Return standard, tick w0)
    /\ get_emergency_route a b c d w = (Return payload, tick (tick w))
    /\ let emergency :=
         Qfloor (0.8 * inject_Z (total_duration_minutes standard)) in
       dict_path ["route"; "total_duration_minutes"]%string payload
         = Some (VInt emergency)
       /\ (emergency <= total_duration_minutes standard)%Z
       /\ dict_path ["route"; "transport_mode"]%string payload
          = Some (VStr "emergency")
       /\ dict_path ["emergency_info"; "estimated_time_saved"]%string payload
          = Some (VStr (pretty (total_duration_minutes standard - emergency)%Z
                        +:+ " minutes"))
       /\ exists step_dicts,
            dict_get "steps" payload = Some (VList step_dicts)
            /\ Forall2
                 (fun sd s =>
                    dict_get "duration_seconds" sd
                    = Some (VInt (Qfloor (0.8 * inject_Z (duration_seconds s)))))
                 step_dicts (steps standard).
Proof.
  intros Hd. rewrite get_route_run.
  unfold get_emergency_route, bind. rewrite get_route_run.
  eexists _, _. split; [reflexivity |]. split; [reflexivity |].
  cbn [total_duration_minutes steps].
  destruct (scaled_duration _ (total_duration_nonneg a b c d Hd))
    as (Hint & _ & Hle).
  destruct (step_duration_floor _ Hd) as [_ Hstep].
  destruct (scaled_duration _ Hstep) as (Hsint & _).
  cbn zeta. rewrite <- Hint.
  split; [reflexivity |]. split; [rewrite Hint; exact Hle |].
  split; [reflexivity |]. split; [reflexivity |].
  eexists. split; [reflexivity |].
  unfold _create_simplified_route_steps. cbn [app map].
  do 2 (constructor;
        [unfold emergency_step_dict; cbn [duration_seconds];
         rewrite <- Hsint; reflexivity |]).
  constructor.
Qed.

End RoutingFacts.

(** C4 fails on the code: whatever the distance function, the clock and the
    mode, [get_route] reports [int(distance_km / 50 * 60)] minutes.  For one
    degree along the equator (111.195 km) a "walking" route is reported with
    133 minutes, the driving time, where the walking preset of 5 km/h gives
    [floor(111.195 / 5 * 60) = 1334]; [calculate_route_time], which applies
    the presets, does return 1334 for the same arguments. *)
Theorem get_route_duration_ignores_mode :
  (forall haversine_distance clock a b c d mode w,
     exists r,
       get_route haversine_distance clock a b c d mode w = (Return r, tick w)
       /\ transport_mode r = mode
       /\ total_duration_minutes r
          = py_int (haversine_distance a b c d / 50 * 60)%Q)
  /\ (exists r,
        get_route grid_distance ticking_clock 0 0 0 1 "walking" empty_world
        = (Return r, tick empty_world)
        /\ transport_mode r = "walking"%string
        /\ total_duration_minutes r = 133%Z)
  /\ Qfloor (grid_distance 0 0 0 1
             / default 50 (speed_kmh !! "walking"%string) * 60)%Q
     = 1334%Z
  /\ (estimated_travel_time_minutes <$>
        calculate_route_time grid_distance 0 0 0 1 "walking") = Some 1334%Z.
Proof.
  split.
  - intros hav clock a b c d mode w.
    destruct (get_route_mode_independent hav clock a b c d mode w)
      as (r & Hr & Hm & Hd & _).
    exists r. auto.
  - split; [| split; reflexivity].
    rewrite get_route_run. eexists. repeat split.
Qed.

(** ** Routes in double precision *)

Section DoublePrecision.

Import Floats.PrimFloat Floats.SpecFloat Floats.FloatOps.

Local Open Scope float_scope.

Variable haversine_distance : float -> float -> float -> float -> float.
Variable clock : nat -> datetime.

Local Abbreviation get_route := (Binary64.get_route haversine_distance clock).

(** On a float that is not negative [int] is the floor of its value. *)
Lemma py_int_floor_binary64 (x : float) (z : Z) :
  Binary64.py_int x = inl z -> (0 <= Binary64.value x)%Q ->
  z = Qfloor (Binary64.value x).
Proof.
  unfold Binary64.py_int, Binary64.value.
  destruct (Prim2SF x) as [s | s | | s m e]; try discriminate.
  - intros [= <-] _. reflexivity.
  - intros [= <-]. destruct s.
    + intros H. exfalso.
      assert (Hm : (0 < match e with
                        | Z0 => inject_Z (Z.pos m)
                        | Z.pos p => inject_Z (Z.pos m * 2 ^ Z.pos p)
                        | Z.neg p => Z.pos m # 2 ^ p
                        end)%Q).
      { destruct e as [| p | p]; try reflexivity.
        change 0%Q with (inject_Z 0). rewrite <- Zlt_Qlt.
        apply Z.mul_pos_pos; [reflexivity |].
        apply Z.pow_pos_nonneg; [reflexivity | discriminate]. }
      revert H Hm. generalize (match e with
                               | Z0 => inject_Z (Z.pos m)
                               | Z.pos p => inject_Z (Z.pos m * 2 ^ Z.pos p)
                               | Z.neg p => Z.pos m # 2 ^ p
                               end).
      intros q H Hm. Lqa.lra.
    + intros _. destruct e as [| p | p].
      * cbn [Z.shiftl]. symmetry. apply Qfloor_Z.
      * rewrite Z.shiftl_mul_pow2 by discriminate. symmetry. apply Qfloor_Z.
      * change (Z.shiftl (Z.pos m) (Z.neg p)) with (Z.shiftr (Z.pos m) (Z.pos p)).
        rewrite Z.shiftr_div_pow2 by discriminate.
        unfold Qfloor. now rewrite Pos2Z.inj_pow.
Qed.

(** C5 (as the code has it): when the two [int(...)] conversions succeed,
    the route of [get_route] has exactly two steps, start to the arithmetic
    midpoint and midpoint to end, so the first step starts at the route's
    start and the last ends at the route's end; each step carries
    [total_distance_km * 0.5 * 1000] metres and lasts
    [int(distance_meters / 1000 * 60)] seconds, quotient and product each
    rounded to a double: for a distance that is not negative, the floor of
    that double. *)
Theorem get_route_two_steps_rounded (a b c d : float) (mode : string)
    (w : World) (minutes seconds : Z) :
  Binary64.py_int (haversine_distance a b c d / 50 * 60) = inl minutes ->
  Binary64.py_int (haversine_distance a b c d * 0.5 * 1000 / 1000 * 60)
  = inl seconds ->
  exists r s1 s2,
    get_route a b c d mode w = (inl r, tick w)
    /\ Binary64.steps r = [s1; s2]
    /\ Binary64.step_start_location s1 = (a, b)
    /\ Binary64.step_end_location s1 = ((a + c) / 2, (b + d) / 2)
    /\ Binary64.step_start_location s2 = ((a + c) / 2, (b + d) / 2)
    /\ Binary64.step_end_location s2 = (c, d)
    /\ Binary64.step_start_location s1 = Binary64.start_location r
    /\ Binary64.step_end_location s2 = Binary64.end_location r
    /\ Binary64.total_distance_km r = haversine_distance a b c d
    /\ Forall (fun s =>
                 Binary64.distance_meters s
                 = Binary64.total_distance_km r * 0.5 * 1000
                 /\ Binary64.py_int (Binary64.distance_meters s / 1000 * 60)
                    = inl (Binary64.duration_seconds s)
                 /\ ((0 <= Binary64.value (Binary64.distance_meters s / 1000 * 60))%Q ->
                     Binary64.duration_seconds s
                     = Qfloor (Binary64.value
                                 (Binary64.distance_meters s / 1000 * 60))))
         [s1; s2].
Proof.
  intros Hminutes Hseconds.
  unfold Binary64.get_route, Binary64.calculate_distance,
    Binary64._create_simplified_route_steps.
  cbn [Binary64.latitude Binary64.longitude]. rewrite Hminutes.
  cbn [Binary64.distance_km]. rewrite Hseconds.
  eexists _, _, _. split; [reflexivity |].
  cbn [Binary64.steps Binary64.start_location Binary64.end_location
       Binary64.total_distance_km app].
  split; [reflexivity |].
  cbn [Binary64.step_start_location Binary64.step_end_location
       Binary64.distance_meters Binary64.duration_seconds].
  repeat (split; [reflexivity |]).
  repeat constructor; try exact Hseconds;
    intros Hpos; exact (py_int_floor_binary64 _ _ Hseconds Hpos).
Qed.

(** A distance that is a NaN or an infinity makes [get_route] raise what
    [int] raises, before the clock is read. *)
Lemma get_route_not_a_number (a b c d : float) (mode : string) (w : World) :
  (haversine_distance a b c d = nan ->
   get_route a b c d mode w = (inr Binary64.ValueError, w))
  /\ (haversine_distance a b c d = infinity ->
      get_route a b c d mode w = (inr Binary64.OverflowError, w))
  /\ (haversine_distance a b c d = neg_infinity ->
      get_route a b c d mode w = (inr Binary64.OverflowError, w)).
Proof.
  unfold Binary64.get_route, Binary64.calculate_distance.
  cbn [Binary64.latitude Binary64.longitude].
  repeat split; intros ->; reflexivity.
Qed.

End DoublePrecision.

(** ** Session identifiers *)

Section SplitLists.

Context {A : Type}.



End SplitLists.

























(** ** Navigation session tracker *)

Section NavigationFacts.

Local Open Scope Q_scope.

Variable haversine_distance : Q -> Q -> Q -> Q -> Q.
Variable clock : nat -> datetime.
Variable isoformat : datetime -> string.

Local Abbreviation calculate_distance := (calculate_distance haversine_distance).
Local Abbreviation get_route := (get_route haversine_distance clock).
Local Abbreviation start_navigation :=
  (start_navigation haversine_distance clock isoformat).
Local Abbreviation update_navigation :=
  (update_navigation haversine_distance clock).
Local Abbreviation end_navigation := (end_navigation clock).
Local Abbreviation started_session := (started_session haversine_distance clock).

Lemma start_navigation_run (u : string) (a b c d : Q) (mode : string) (w : World) :
  exists p,
    start_navigation u a b c d mode w
    = (Return p,
       {| ticks := S (S (S (ticks w)));
          active_navigations :=
            <[navigation_id_of u (clock (ticks w))
              := started_session u a b c d mode w]> (active_navigations w) |})
    /\ dict_get "navigation_id" p
       = Some (VStr (navigation_id_of u (clock (ticks w))))
    /\ dict_get "status" p = Some (VStr "started")
    /\ dict_path ["current_step"; "instruction"]%string p
       = Some (VStr "Start navigation to destination").
Proof.
  unfold start_navigation, bind, now, get_route, store_session, bind, now, ret.
  cbn [ticks active_navigations steps].
  unfold _create_simplified_route_steps, list_index.
  cbn [app lookup list_lookup ret].
  eexists. split; [reflexivity |]. repeat split.
Qed.

Lemma update_navigation_unknown (k : string) (lat lon : Q) (w : World) :
  active_navigations w !! k = None ->
  update_navigation k lat lon w = (Return not_found, w).
Proof.
  intros Hk. unfold update_navigation, bind, get_navigations.
  now rewrite bool_decide_eq_true_2.
Qed.

Lemma update_navigation_known (k : string) (lat lon : Q) (w : World)
    (s : NavigationSession) :
  active_navigations w !! k = Some s ->
  update_navigation k lat lon w
  = (Return (VDict
       [("navigation_id"%string, VStr k);
        ("remaining_distance_km"%string,
           VFloat (py_round
                     (haversine_distance lat lon
                        (fst (end_location (route s)))
                        (snd (end_location (route s)))) 2));
        ("estimated_time_remaining_minutes"%string,
           VInt (py_int (haversine_distance lat lon
                           (fst (end_location (route s)))
                           (snd (end_location (route s))) / 50 * 60)));
        ("current_step"%string, VInt (current_step s));
        ("status"%string, VStr "active")]),
     {| ticks := S (ticks w);
        active_navigations :=
          <[k := updated_session s (clock (ticks w)) (lat, lon)]>
            (active_navigations w) |}).
Proof.
  intros Hk. unfold update_navigation, bind, get_navigations.
  rewrite bool_decide_eq_false_2 by congruence.
  unfold lookup_session. now rewrite Hk.
Qed.

Lemma end_navigation_unknown (k : string) (w : World) :
  active_navigations w !! k = None ->
  end_navigation k w = (Return not_found, w).
Proof.
  intros Hk. unfold end_navigation, bind, get_navigations.
  now rewrite bool_decide_eq_true_2.
Qed.

Lemma end_navigation_known (k : string) (w : World) (s : NavigationSession) :
  active_navigations w !! k = Some s ->
  end_navigation k w
  = (Return (VDict
       [("navigation_id"%string, VStr k);
        ("status"%string, VStr "completed");
        ("duration_minutes"%string,
           VInt (py_int (total_seconds (clock (ticks w) - started_at s) / 60)))]),
     {| ticks := S (ticks w);
        active_navigations :=
          <[k := ended_session s (clock (ticks w))]> (active_navigations w) |}).
Proof.
  intros Hk. unfold end_navigation, bind, get_navigations.
  rewrite bool_decide_eq_false_2 by congruence.
  unfold lookup_session. now rewrite Hk.
Qed.

(** C7: for a session id that is not in the table, [update_navigation] and
    [end_navigation] return the payload with the error string
    "Navigation session not found", change nothing and raise nothing; they
    return normally for every id, and the payload has an ["error"] key if and
    only if the id is unknown. *)
Theorem unknown_session_not_found (k : string) (lat lon : Q) (w : World) :
  (exists p w',
     update_navigation k lat lon w = (Return p, w')
     /\ (dict_has "error" p = true <-> active_navigations w !! k = None)
     /\ (active_navigations w !! k = None ->
         p = not_found /\ w' = w
         /\ dict_get "error" p = Some (VStr "Navigation session not found")))
  /\ (exists p w',
        end_navigation k w = (Return p, w')
        /\ (dict_has "error" p = true <-> active_navigations w !! k = None)
        /\ (active_navigations w !! k = None ->
            p = not_found /\ w' = w
            /\ dict_get "error" p = Some (VStr "Navigation session not found"))).
Proof.
  destruct (active_navigations w !! k) as [s |] eqn:Hk; split.
  - rewrite (update_navigation_known k lat lon w s Hk).
    eexists _, _. split; [reflexivity |].
    split; [split; discriminate | discriminate].
  - rewrite (end_navigation_known k w s Hk).
    eexists _, _. split; [reflexivity |].
    split; [split; discriminate | discriminate].
  - rewrite (update_navigation_unknown k lat lon w Hk).
    eexists _, _. split; [reflexivity |]. repeat split.
  - rewrite (end_navigation_unknown k w Hk).
    eexists _, _. split; [reflexivity |]. repeat split.
Qed.

(** C8: on an existing session [update_navigation] sets [last_update] and
    [current_position] and leaves [route], [current_step], [status],
    [user_id] and [started_at] (and every other session) as they were; the
    [current_step] it returns is the stored one; the remaining distance it
    reports is the distance from the given position to the route's end,
    rounded to two decimals. *)
Theorem update_navigation_frame (k : string) (lat lon : Q) (w : World)
    (s : NavigationSession) :
  active_navigations w !! k = Some s ->
  exists p w' s',
    update_navigation k lat lon w = (Return p, w')
    /\ active_navigations w' = <[k := s']> (active_navigations w)
    /\ last_update s' = Some (clock (ticks w))
    /\ current_position s' = Some (lat, lon)
    /\ route s' = route s
    /\ current_step s' = current_step s
    /\ status s' = status s
    /\ user_id s' = user_id s
    /\ started_at s' = started_at s
    /\ id s' = id s
    /\ ended_at s' = ended_at s
    /\ dict_get "current_step" p = Some (VInt (current_step s))
    /\ dict_get "remaining_distance_km" p
       = Some (VFloat
                 (py_round
                    (distance_km
                       (calculate_distance
                          (mkLocation lat lon None)
                          (mkLocation (fst (end_location (route s)))
                                      (snd (end_location (route s))) None)))
                    2)).
Proof.
  intros Hk. rewrite (update_navigation_known k lat lon w s Hk).
  eexists _, _, (updated_session s (clock (ticks w)) (lat, lon)).
  split; [reflexivity |]. repeat split.
Qed.


(** C10: [update_navigation] on a session that is already completed still
    succeeds: no error, [last_update] and [current_position] are
    overwritten, the stored status stays "completed", and the response says
    "active". *)
Theorem update_after_end (k : string) (lat lon : Q) (w : World)
    (s : NavigationSession) :
  active_navigations w !! k = Some s ->
  status s = "completed"%string ->
  exists p w' s',
    update_navigation k lat lon w = (Return p, w')
    /\ dict_has "error" p = false
    /\ dict_get "status" p = Some (VStr "active")
    /\ active_navigations w' !! k = Some s'
    /\ status s' = "completed"%string
    /\ last_update s' = Some (clock (ticks w))
    /\ current_position s' = Some (lat, lon).
Proof.
  intros Hk Hs. rewrite (update_navigation_known k lat lon w s Hk).
  eexists _, _, (updated_session s (clock (ticks w)) (lat, lon)).
  split; [reflexivity |]. cbn [active_navigations].
  rewrite lookup_insert_eq. repeat split. exact Hs.
Qed.

(** [end_navigation] on an existing session leaves a completed one, whatever
    its status was. *)
Lemma end_navigation_completes (k : string) (w : World) (s : NavigationSession) :
  active_navigations w !! k = Some s ->
  exists p w' s',
    end_navigation k w = (Return p, w')
    /\ dict_get "status" p = Some (VStr "completed")
    /\ active_navigations w' !! k = Some s'
    /\ status s' = "completed"%string
    /\ ended_at s' = Some (clock (ticks w)).
Proof.
  intros Hk. rewrite (end_navigation_known k w s Hk).
  eexists _, _, (ended_session s (clock (ticks w))).
  split; [reflexivity |]. cbn [active_navigations].
  rewrite lookup_insert_eq. repeat split.
Qed.

(** A completed session stays completed under every later update and end,
    of its own id or of any other. *)
Theorem completed_stays_completed (k k' : string) (lat lon : Q) (w : World)
    (s : NavigationSession) :
  active_navigations w !! k = Some s ->
  status s = "completed"%string ->
  (exists s', active_navigations (snd (update_navigation k' lat lon w)) !! k
              = Some s'
              /\ status s' = "completed"%string)
  /\ (exists s', active_navigations (snd (end_navigation k' w)) !! k = Some s'
                 /\ status s' = "completed"%string).
Proof.
  intros Hk Hs.
  destruct (active_navigations w !! k') as [s0 |] eqn:Hk'.
  - rewrite (update_navigation_known k' lat lon w s0 Hk').
    rewrite (end_navigation_known k' w s0 Hk').
    cbn [snd active_navigations].
    destruct (decide (k' = k)) as [-> | Hne].
    + rewrite !lookup_insert_eq. assert (s0 = s) as -> by congruence.
      split; eexists; (split; [reflexivity |]); [exact Hs | reflexivity].
    + rewrite !lookup_insert_ne by exact Hne. split; exists s; auto.
  - rewrite (update_navigation_unknown k' lat lon w Hk').
    rewrite (end_navigation_unknown k' w Hk').
    split; exists s; auto.
Qed.

End NavigationFacts.

(** * Further properties *)

(** ** More on the Python numerics and the sorts *)

(** Truncation toward zero is monotone on all floats, whatever their signs. *)
Lemma py_int_mono (x y : Q) : (x <= y)%Q -> (py_int x <= py_int y)%Z.
Proof.
  destruct x as [n1 d1], y as [n2 d2]. unfold Qle, py_int. simpl. intros H.
  rewrite <- (Z.quot_mul_cancel_r n1 (Z.pos d1) (Z.pos d2)) by lia.
  rewrite <- (Z.quot_mul_cancel_r n2 (Z.pos d2) (Z.pos d1)) by lia.
  rewrite (Z.mul_comm (Z.pos d2) (Z.pos d1)).
  apply Z.quot_le_mono; lia.
Qed.

Lemma py_max_ge_l (a b : Q) : (a <= py_max a b)%Q.
Proof.
  unfold py_max. destruct (Qlt_le_dec a b) as [H | H];
    [apply Qlt_le_weak, H | apply Qle_refl].
Qed.

Lemma py_max_0_mono (x y : Q) : (x <= y -> py_max 0 x <= py_max 0 y)%Q.
Proof.
  intros H. unfold py_max.
  destruct (Qlt_le_dec 0 x) as [Hx | Hx], (Qlt_le_dec 0 y) as [Hy | Hy];
    try assumption; try apply Qle_refl.
  - exfalso. apply (Qlt_irrefl 0).
    eapply Qlt_le_trans; [exact Hx |]. eapply Qle_trans; eassumption.
  - apply Qlt_le_weak, Hy.
Qed.

Lemma py_max_0_le (x b : Q) : (0 <= b -> x <= b -> py_max 0 x <= b)%Q.
Proof. intros Hb Hx. unfold py_max. destruct (Qlt_le_dec 0 x); assumption. Qed.

Lemma py_max_0_nonpos (x : Q) : (x <= 0 -> py_max 0 x = 0)%Q.
Proof.
  intros Hx. unfold py_max. destruct (Qlt_le_dec 0 x) as [H | _]; [| reflexivity].
  exfalso. apply (Qlt_irrefl 0). eapply Qlt_le_trans; eassumption.
Qed.

Section MoreSorting.

Context {A : Type} (key : A -> Q).

(** On a sorted list, filtering commutes with insertion. *)
Lemma filter_sort_insert (P : A -> bool) (x : A) (l : list A) :
  StronglySorted (key_le key) l ->
  List.filter P (sort_insert key x l)
  = if P x then sort_insert key x (List.filter P l) else List.filter P l.
Proof.
  induction 1 as [| y t Ht IH Hy]; cbn [sort_insert List.filter].
  - destruct (P x); reflexivity.
  - destruct (Qle_bool (key x) (key y)) eqn:Hxy; cbn [List.filter].
    + destruct (P x) eqn:Hx; [| reflexivity].
      destruct (P y) eqn:Hpy.
      * cbn [sort_insert]. now rewrite Hxy.
      * assert (Hall : Forall (fun z => Qle_bool (key x) (key z) = true)
                         (List.filter P t)).
        { rewrite Forall_forall in Hy |- *. intros z Hz.
          apply list_elem_of_In, filter_In in Hz as [Hz _].
          apply Qle_bool_iff. apply Qle_bool_iff in Hxy.
          eapply Qle_trans; [exact Hxy |].
          apply Hy, list_elem_of_In, Hz. }
        destruct (List.filter P t) as [| z t']; [reflexivity |].
        cbn [sort_insert]. apply Forall_cons in Hall as [Hz _].
        now rewrite Hz.
    + rewrite IH. destruct (P y) eqn:Hpy, (P x) eqn:Hx; try reflexivity.
      cbn [sort_insert]. now rewrite Hxy.
Qed.

(** The stable sort commutes with every filter: sorting the selected
    elements gives the selected elements of the sorted list. *)
Lemma filter_list_sort (P : A -> bool) (l : list A) :
  List.filter P (list_sort key l) = list_sort key (List.filter P l).
Proof.
  induction l as [| x t IH]; [reflexivity |]. cbn [list_sort List.filter].
  rewrite filter_sort_insert by apply list_sort_sorted.
  rewrite IH. destruct (P x); reflexivity.
Qed.

(** In a sorted list the elements up to a threshold come first. *)
Lemma sorted_threshold_prefix (threshold : Q) (l : list A) :
  StronglySorted (key_le key) l ->
  List.filter (fun x => Qle_bool (key x) threshold) l `prefix_of` l.
Proof.
  induction 1 as [| y t Ht IH Hy]; cbn [List.filter].
  - reflexivity.
  - destruct (Qle_bool (key y) threshold) eqn:Hyk.
    + apply prefix_cons, IH.
    + replace (List.filter (fun x => Qle_bool (key x) threshold) t) with (@nil A);
        [apply prefix_nil |].
      symmetry. clear IH Ht.
      induction Hy as [| z u Hz Hu IHu]; [reflexivity |]. cbn [List.filter].
      destruct (Qle_bool (key z) threshold) eqn:Hzk; [| exact IHu].
      exfalso. apply Qle_bool_iff in Hzk.
      assert (Hle : Qle_bool (key y) threshold = true); [| congruence].
      apply Qle_bool_iff. eapply Qle_trans; [exact Hz | exact Hzk].
Qed.

Lemma list_sort_reverse_perm (l : list A) : list_sort_reverse key l ≡ₚ l.
Proof.
  unfold list_sort_reverse.
  rewrite <- (Permutation_rev (list_sort key (rev l))), list_sort_perm.
  symmetry. apply Permutation_rev.
Qed.

Lemma StronglySorted_rev_flip (R : A -> A -> Prop) (l : list A) :
  StronglySorted R l -> StronglySorted (fun x y => R y x) (rev l).
Proof.
  induction 1 as [| y t Ht IH Hy]; simpl; [constructor |].
  apply StronglySorted_app_2; [| exact IH | repeat constructor].
  intros x1 x2 H1 H2. apply list_elem_of_singleton in H2 as ->.
  rewrite Forall_forall in Hy. apply Hy.
  apply list_elem_of_In, in_rev, list_elem_of_In, H1.
Qed.

(** The reversed sort gives a descending list. *)
Lemma list_sort_reverse_sorted (l : list A) :
  StronglySorted (key_ge key) (list_sort_reverse key l).
Proof.
  unfold list_sort_reverse.
  apply (StronglySorted_rev_flip (key_le key)), list_sort_sorted.
Qed.

Lemma with_key_rev (k : Q) (l : list A) :
  with_key key k (rev l) = rev (with_key key k l).
Proof.
  unfold with_key. induction l as [| x t IH]; [reflexivity |]. simpl.
  rewrite List.filter_app, IH. simpl.
  destruct (Qeq_bool (key x) k); simpl; [reflexivity | now rewrite app_nil_r].
Qed.

(** ... in which elements of equal key keep their input order. *)
Lemma list_sort_reverse_with_key (k : Q) (l : list A) :
  with_key key k (list_sort_reverse key l) = with_key key k l.
Proof.
  unfold list_sort_reverse.
  now rewrite with_key_rev, list_sort_with_key, with_key_rev, rev_involutive.
Qed.

End MoreSorting.

Lemma filter_filter_implied {A : Type} (P1 P2 : A -> bool) (l : list A) :
  (forall x, P1 x = true -> P2 x = true) ->
  List.filter P1 (List.filter P2 l) = List.filter P1 l.
Proof.
  intros H. induction l as [| x t IH]; [reflexivity |]. cbn [List.filter].
  destruct (P2 x) eqn:H2; cbn [List.filter]; rewrite IH; [reflexivity |].
  destruct (P1 x) eqn:H1; [| reflexivity].
  apply H in H1. congruence.
Qed.

Lemma StronglySorted_transfer {A : Type} (R R' : A -> A -> Prop)
    (P : A -> Prop) (l : list A) :
  Forall P l ->
  (forall x y, P x -> P y -> R x y -> R' x y) ->
  StronglySorted R l -> StronglySorted R' l.
Proof.
  intros HP Himp. induction 1 as [| y t Ht IH Hy]; [constructor |].
  apply Forall_cons in HP as [Py Pt].
  constructor; [apply IH, Pt |].
  rewrite Forall_forall in Hy, Pt |- *. intros z Hz.
  apply Himp; auto.
Qed.

Lemma minutes_at_50_mono (d1 d2 : Q) :
  (d1 <= d2)%Q -> (py_int (d1 / 50 * 60) <= py_int (d2 / 50 * 60))%Z.
Proof.
  intros H. apply py_int_mono.
  apply Qmult_le_compat_r; [| discriminate].
  unfold Qdiv. apply Qmult_le_compat_r; [exact H | discriminate].
Qed.

(** ** More on the proximity filter *)

Section MoreProximity.

Local Open Scope Q_scope.

Variable haversine_distance : Q -> Q -> Q -> Q -> Q.

Local Abbreviation calculate_distance := (calculate_distance haversine_distance).
Local Abbreviation find_nearest_hospitals :=
  (find_nearest_hospitals haversine_distance).
Local Abbreviation measured := (measured haversine_distance).
Local Abbreviation within_radius := (within_radius haversine_distance).

Lemma within_radius_shrink (ulat ulon r1 r2 : Q) (hospitals : list Hospital) :
  r1 <= r2 ->
  List.filter (fun p => Qle_bool (distance_km (snd p)) r1)
    (within_radius ulat ulon hospitals r2)
  = within_radius ulat ulon hospitals r1.
Proof.
  intros Hr. unfold within_radius. apply filter_filter_implied.
  intros p Hp. apply Qle_bool_iff. apply Qle_bool_iff in Hp.
  eapply Qle_trans; eassumption.
Qed.

(** Enlarging the search radius neither drops nor reorders the hospitals
    already found: the result for the smaller radius is the part of the
    larger result that lies within the smaller radius, and that part is its
    beginning. *)
Theorem find_nearest_hospitals_radius (ulat ulon r1 r2 : Q)
    (hospitals : list Hospital) :
  r1 <= r2 ->
  find_nearest_hospitals ulat ulon hospitals r1
  = List.filter (fun p => Qle_bool (distance_km (snd p)) r1)
      (find_nearest_hospitals ulat ulon hospitals r2)
  /\ find_nearest_hospitals ulat ulon hospitals r1
     `prefix_of` find_nearest_hospitals ulat ulon hospitals r2.
Proof.
  intros Hr.
  assert (E : find_nearest_hospitals ulat ulon hospitals r1
              = List.filter (fun p => Qle_bool (distance_km (snd p)) r1)
                  (find_nearest_hospitals ulat ulon hospitals r2)).
  { rewrite !find_nearest_hospitals_eq, filter_list_sort.
    now rewrite within_radius_shrink. }
  split; [exact E |]. rewrite E.
  apply (sorted_threshold_prefix (fun x => distance_km (snd x))).
  rewrite find_nearest_hospitals_eq. apply list_sort_sorted.
Qed.

(** Every returned pair carries the distance result of its own hospital, so
    the list is ascending in miles and in estimated travel time as well. *)
Theorem find_nearest_hospitals_by_time (ulat ulon max_km : Q)
    (hospitals : list Hospital) :
  let result := find_nearest_hospitals ulat ulon hospitals max_km in
  Forall (fun p =>
            snd p = calculate_distance
                      (mkLocation ulat ulon None)
                      (mkLocation (hospital_latitude (fst p))
                                  (hospital_longitude (fst p)) None)) result
  /\ StronglySorted
       (fun p q => (estimated_travel_time_minutes (snd p)
                    <= estimated_travel_time_minutes (snd q))%Z) result
  /\ StronglySorted
       (fun p q => distance_miles (snd p) <= distance_miles (snd q)) result.
Proof.
  intros result. subst result. rewrite find_nearest_hospitals_eq.
  set (l := list_sort _ _).
  assert (Hown : Forall (fun p => p = measured ulat ulon (fst p)) l).
  { apply Forall_forall. intros p Hp. unfold l in Hp.
    rewrite (list_sort_perm _ (within_radius ulat ulon hospitals max_km)) in Hp.
    apply within_radius_elem in Hp as (h & _ & -> & _). reflexivity. }
  assert (Hs : StronglySorted (key_le (fun x => distance_km (snd x))) l)
    by apply list_sort_sorted.
  split; [| split].
  - eapply Forall_impl; [exact Hown |]. intros p Hp. now rewrite Hp at 1.
  - eapply StronglySorted_transfer; [exact Hown | | exact Hs].
    intros p q -> ->. unfold key_le. cbn. apply minutes_at_50_mono.
  - eapply StronglySorted_transfer; [exact Hown | | exact Hs].
    intros p q -> ->. unfold key_le. cbn. intros H.
    apply Qmult_le_compat_r; [exact H | discriminate].
Qed.

End MoreProximity.

(** ** More on the distance engine *)

Section MoreDistance.

Local Open Scope Q_scope.

Variable haversine_distance : Q -> Q -> Q -> Q -> Q.

Local Abbreviation calculate_distance := (calculate_distance haversine_distance).
Local Abbreviation calculate_route_time :=
  (calculate_route_time haversine_distance).

Lemma speed_kmh_get (mode : string) :
  default 50 (speed_kmh !! mode)
  = if String.eqb mode "walking" then 5
    else if String.eqb mode "cycling" then 15
    else if String.eqb mode "public_transport" then 30
    else 50.
Proof.
  unfold speed_kmh. cbn [list_to_map foldr].
  rewrite !lookup_insert, lookup_empty. cbn [fst snd].
  repeat case_decide; subst; try reflexivity.
  repeat match goal with
         | |- context [String.eqb ?a ?b] =>
             destruct (String.eqb_spec a b); try congruence
         end.
  reflexivity.
Qed.

(** For "driving" and for every mode the speed table does not list,
    [calculate_route_time] returns what [calculate_distance] returns for the
    same two points. *)
Theorem calculate_route_time_default (a b c d : Q) (mode : string) :
  mode <> "walking"%string -> mode <> "cycling"%string ->
  mode <> "public_transport"%string ->
  calculate_route_time a b c d mode
  = Some (calculate_distance (mkLocation a b None) (mkLocation c d None)).
Proof.
  intros Hw Hc Hp. unfold calculate_route_time, calculate_distance.
  rewrite speed_kmh_get.
  destruct (String.eqb_spec mode "walking"); [contradiction |].
  destruct (String.eqb_spec mode "cycling"); [contradiction |].
  destruct (String.eqb_spec mode "public_transport"); [contradiction |].
  reflexivity.
Qed.

Lemma minutes_speed_antitone (dist s1 s2 : Q) :
  0 <= dist -> 0 < s1 -> s1 <= s2 ->
  (py_int (dist / s2 * 60) <= py_int (dist / s1 * 60))%Z.
Proof.
  intros Hd Hs1 Hs. apply py_int_mono.
  apply Qmult_le_compat_r; [| discriminate].
  assert (Hs2 : 0 < s2) by (eapply Qlt_le_trans; eassumption).
  apply Qle_shift_div_l; [exact Hs1 |].
  unfold Qdiv. rewrite <- Qmult_assoc, (Qmult_comm (/ s2) s1), Qmult_assoc.
  apply Qle_shift_div_r; [exact Hs2 |].
  rewrite (Qmult_comm dist s1), (Qmult_comm dist s2).
  apply Qmult_le_compat_r; assumption.
Qed.

(** Over one and the same stretch a slower mode of transport never gets the
    shorter estimate: walking takes at least as long as cycling, cycling as
    public transport, public transport as driving. *)
Theorem calculate_route_time_modes (a b c d : Q) :
  0 <= haversine_distance a b c d ->
  exists walking cycling transit driving,
    calculate_route_time a b c d "walking" = Some walking
    /\ calculate_route_time a b c d "cycling" = Some cycling
    /\ calculate_route_time a b c d "public_transport" = Some transit
    /\ calculate_route_time a b c d "driving" = Some driving
    /\ (0 <= estimated_travel_time_minutes driving
        <= estimated_travel_time_minutes transit)%Z
    /\ (estimated_travel_time_minutes transit
        <= estimated_travel_time_minutes cycling)%Z
    /\ (estimated_travel_time_minutes cycling
        <= estimated_travel_time_minutes walking)%Z
    /\ distance_km walking = distance_km driving.
Proof.
  intros Hd. unfold calculate_route_time.
  eexists _, _, _, _. do 4 (split; [reflexivity |]).
  cbn [estimated_travel_time_minutes distance_km].
  change (default 50 (speed_kmh !! "walking"%string)) with 5.
  change (default 50 (speed_kmh !! "cycling"%string)) with 15.
  change (default 50 (speed_kmh !! "public_transport"%string)) with 30.
  change (default 50 (speed_kmh !! "driving"%string)) with 50.
  split; [split |].
  - apply py_int_nonneg. apply Qmult_le_0_compat; [| discriminate].
    apply Qdiv_nonneg; [exact Hd | reflexivity].
  - apply minutes_speed_antitone; [exact Hd | reflexivity | discriminate].
  - split; [| split; [| reflexivity]];
      (apply minutes_speed_antitone; [exact Hd | reflexivity | discriminate]).
Qed.

End MoreDistance.

(** ** More on the compatibility scorer *)

Section MoreScorer.

Local Open Scope Q_scope.

Lemma accepts_blood_types (r d : string) :
  d ∈ accepts r -> r ∈ blood_types.
Proof.
  unfold accepts.
  repeat match goal with
         | |- context [String.eqb r ?b] =>
             destruct (String.eqb_spec r b) as [-> | ?];
               [intros _; apply list_elem_of_In; cbn; tauto |]
         end.
  intros H. destruct (not_elem_of_nil _ H).
Qed.

Lemma compatible_listed (r d : string) :
  _is_blood_type_compatible r d = true <-> In (r, d) compatible_list.
Proof.
  rewrite is_blood_type_compatible_accepts. unfold compatible_list.
  rewrite in_flat_map. split.
  - intros H. exists r. split.
    + apply list_elem_of_In. eapply accepts_blood_types, H.
    + apply in_map, list_elem_of_In, H.
  - intros (r' & _ & H). apply in_map_iff in H as (d' & E & H).
    injection E as -> ->. apply list_elem_of_In, H.
Qed.

(** Case analysis over the pairs of the table, closing each case with [tac]. *)
Ltac listed_pairs H tac :=
  apply compatible_listed in H; cbn in H;
  repeat (destruct H as [H | H]; [simplify_eq; tac |]);
  destruct H.

(** The table is a partial order on the eight blood types with O- below
    everything: every type accepts itself and O-, only the eight types
    occur, a donor of a donor is a donor, and two different types never
    accept each other. *)
Theorem blood_compatibility_order :
  (forall t, t ∈ blood_types -> _is_blood_type_compatible t t = true)
  /\ (forall r, r ∈ blood_types -> _is_blood_type_compatible r "O-" = true)
  /\ (forall r d, _is_blood_type_compatible r d = true ->
                  r ∈ blood_types /\ d ∈ blood_types)
  /\ (forall r d e, _is_blood_type_compatible r d = true ->
                    _is_blood_type_compatible d e = true ->
                    _is_blood_type_compatible r e = true)
  /\ (forall r d, _is_blood_type_compatible r d = true ->
                  _is_blood_type_compatible d r = true -> r = d).
Proof.
  split; [| split; [| split; [| split]]].
  - intros t Ht. apply list_elem_of_In in Ht. cbn in Ht.
    repeat (destruct Ht as [<- | Ht]; [reflexivity |]). destruct Ht.
  - intros t Ht. apply list_elem_of_In in Ht. cbn in Ht.
    repeat (destruct Ht as [<- | Ht]; [reflexivity |]). destruct Ht.
  - intros r d H.
    listed_pairs H ltac:(split; apply list_elem_of_In; cbn; tauto).
  - intros r d e H1 H2.
    listed_pairs H1 ltac:(listed_pairs H2 ltac:(reflexivity)).
  - intros r d H1 H2.
    listed_pairs H1 ltac:(first [reflexivity | discriminate H2]).
Qed.

Lemma py_min_below (a b : Q) : a <= b -> py_min a b = a.
Proof.
  intros H. unfold py_min. destruct (Qlt_le_dec b a) as [Hlt | _]; [| reflexivity].
  exfalso. apply (Qlt_irrefl b). eapply Qlt_le_trans; eassumption.
Qed.

Lemma py_min_mono_l (a a' b : Q) : a <= a' -> py_min a b <= py_min a' b.
Proof.
  intros H. unfold py_min.
  destruct (Qlt_le_dec b a) as [H1 | H1], (Qlt_le_dec b a') as [H2 | H2];
    try apply Qle_refl; try assumption.
  exfalso. apply (Qlt_irrefl b).
  eapply Qlt_le_trans; [exact H1 |]. eapply Qle_trans; eassumption.
Qed.

Lemma condition_bonus_cases (c : option string) :
  (c = Some "excellent"%string /\ condition_bonus c = 0.2)
  \/ (c <> Some "excellent"%string
      /\ (condition_bonus c = 0.1 \/ condition_bonus c = 0.05
          \/ condition_bonus c = 0)).
Proof.
  destruct c as [c |]; [| right; split; [discriminate | auto]].
  unfold condition_bonus.
  destruct (String.eqb_spec c "excellent") as [-> | Hne]; [left; auto |].
  right. split; [congruence |].
  destruct (String.eqb c "good"); [auto |].
  destruct (String.eqb c "fair"); auto.
Qed.

Lemma blood_bonus_cases (recipient : option string) (donor : string) :
  (recipient = Some donor /\ blood_bonus recipient donor = 0.3)
  \/ (recipient <> Some donor
      /\ (blood_bonus recipient donor = 0.2 \/ blood_bonus recipient donor = 0)).
Proof.
  destruct recipient as [r |]; [| right; split; [discriminate | auto]].
  unfold blood_bonus.
  destruct (String.eqb_spec r donor) as [-> | Hne]; [left; auto |].
  right. split; [congruence |].
  destruct (bool_decide (donor ∈ accepts r)); auto.
Qed.

(** The score before any clamping, for a record that carries a blood type. *)
Lemma score_sum (oa : OrganAvailability) (recipient : option string)
    (donor : string) :
  blood_type oa = Some donor -> donor <> ""%string ->
  get_organ_availability_score oa recipient
  == 0.5 + blood_bonus recipient donor + condition_bonus (condition oa).
Proof.
  intros Hd Hne.
  assert (E : get_organ_availability_score oa recipient
              == Qmin 1 (0.5 + blood_bonus recipient donor
                         + condition_bonus (condition oa))).
  { rewrite (score_formula oa recipient donor Hd Hne), py_min_Qmin.
    apply Q.min_compat; [reflexivity |].
    apply Qplus_comp; [| reflexivity].
    unfold blood_bonus. destruct recipient as [r |]; [| reflexivity].
    destruct (String.eqb_spec r ""%string) as [-> | Hr].
    - cbn [truthy]. destruct (String.eqb_spec ""%string donor) as [E | _];
        [congruence |].
      rewrite bool_decide_eq_false_2; [reflexivity |].
      cbn. apply not_elem_of_nil.
    - assert (Ht : truthy (Some r) = true)
        by (destruct r; [congruence | reflexivity]).
      rewrite Ht, is_blood_type_compatible_table.
      destruct (String.eqb r donor); [reflexivity |].
      destruct (bool_decide (donor ∈ accepts r)); reflexivity. }
  rewrite E. apply Q.min_r.
  destruct (blood_bonus_cases recipient donor) as [[_ ->] | [_ [-> | ->]]];
    destruct (condition_bonus_cases (condition oa))
      as [[_ ->] | [_ [-> | [-> | ->]]]];
    discriminate.
Qed.

(** The clamp at 1.0 never cuts: the score is the plain sum of the base
    score and the two bonuses, and it is 1 exactly for a recipient of the
    donor's own type and an organ in excellent condition. *)
Theorem score_never_clamped (oa : OrganAvailability)
    (recipient : option string) (donor : string) :
  blood_type oa = Some donor -> donor <> ""%string ->
  get_organ_availability_score oa recipient
    == 0.5 + blood_bonus recipient donor + condition_bonus (condition oa)
  /\ (get_organ_availability_score oa recipient == 1
      <-> recipient = Some donor /\ condition oa = Some "excellent"%string).
Proof.
  intros Hd Hne. pose proof (score_sum oa recipient donor Hd Hne) as E.
  split; [exact E |]. rewrite E.
  destruct (blood_bonus_cases recipient donor) as [[Hr ->] | [Hr [-> | ->]]];
    destruct (condition_bonus_cases (condition oa))
      as [[Hc ->] | [Hc [-> | [-> | ->]]]];
    (split; [intros H; try discriminate H; auto | intros [H1 H2]; try contradiction]);
    reflexivity.
Qed.

(** For one and the same record no recipient scores higher than a recipient
    of the donor's own type, and none lower than a recipient whose type is
    not given. *)
Theorem score_prefers_exact (oa : OrganAvailability)
    (recipient : option string) (donor : string) :
  blood_type oa = Some donor -> donor <> ""%string ->
  get_organ_availability_score oa None
    <= get_organ_availability_score oa recipient
  /\ get_organ_availability_score oa recipient
     <= get_organ_availability_score oa (Some donor).
Proof.
  intros Hd Hne.
  rewrite (score_sum oa None donor Hd Hne),
          (score_sum oa recipient donor Hd Hne),
          (score_sum oa (Some donor) donor Hd Hne).
  assert (H0 : blood_bonus None donor = 0) by reflexivity.
  assert (H3 : blood_bonus (Some donor) donor = 0.3)
    by (unfold blood_bonus; now rewrite String.eqb_refl).
  rewrite H0, H3.
  split; (apply Qplus_le_compat; [| apply Qle_refl]);
    (apply Qplus_le_compat; [apply Qle_refl |]);
    destruct (blood_bonus_cases recipient donor) as [[_ ->] | [_ [-> | ->]]];
    discriminate.
Qed.

(** Whatever the blood types are, an organ in better condition never scores
    lower: excellent at least as high as good, good as fair, fair as any
    other or no condition. *)
Theorem score_condition_order (bt c : option string) (q : Z)
    (recipient : option string) :
  let score condition :=
    get_organ_availability_score (mkOrganAvailability bt condition q) recipient in
  score (Some "good"%string) <= score (Some "excellent"%string)
  /\ score (Some "fair"%string) <= score (Some "good"%string)
  /\ score None <= score c
  /\ (c <> Some "excellent"%string -> c <> Some "good"%string ->
      score c <= score (Some "fair"%string)).
Proof.
  intros score. subst score. unfold get_organ_availability_score.
  cbn [blood_type condition].
  set (b := if truthy recipient && truthy bt then _ else _).
  assert (Hget : forall c',
            match c' with
            | Some c0 => default 0 (condition_scores !! c0)
            | None => 0
            end = condition_bonus c').
  { intros [c0 |]; [apply condition_scores_get | reflexivity]. }
  rewrite !Hget.
  repeat split; try intros H1 H2; apply py_min_mono_l;
    (apply Qplus_le_compat; [apply Qle_refl |]); try discriminate.
  - apply condition_bonus_nonneg.
  - destruct (condition_bonus_cases c) as [[Hc _] | [_ [Hg | [-> | ->]]]];
      [contradiction | | discriminate | discriminate].
    exfalso. destruct c as [c0 |]; [| discriminate Hg].
    unfold condition_bonus in Hg.
    destruct (String.eqb_spec c0 "excellent"); [congruence |].
    destruct (String.eqb_spec c0 "good"); [congruence |].
    destruct (String.eqb c0 "fair"); discriminate Hg.
Qed.

End MoreScorer.

(** ** More on the route synthesizer *)

Lemma Qdiv_500 (x : Q) : (x / 500 == x * (1 # 500))%Q.
Proof. reflexivity. Qed.

Lemma Qdiv_300 (x : Q) : (x / 300 == x * (1 # 300))%Q.
Proof. reflexivity. Qed.

Section MoreRouting.

Local Open Scope Q_scope.

Variable haversine_distance : Q -> Q -> Q -> Q -> Q.
Variable clock : nat -> datetime.
Variable isoformat : datetime -> string.

Local Abbreviation get_route := (get_route haversine_distance clock).
Local Abbreviation built_route := (built_route haversine_distance).

Lemma get_route_built (a b c d : Q) (mode : string) (w : World) :
  get_route a b c d mode w
  = (Return (built_route a b c d mode (clock (ticks w))), tick w).
Proof. reflexivity. Qed.

(** A route that is no longer and no slower never scores lower. *)
Lemma route_priority_antitone (route other : Route) (hospital hospital' : Value) :
  total_distance_km route <= total_distance_km other ->
  (total_duration_minutes route <= total_duration_minutes other)%Z ->
  _calculate_route_priority other hospital'
  <= _calculate_route_priority route hospital.
Proof.
  unfold _calculate_route_priority. cbv zeta. intros Hd Ht.
  assert (Hq : inject_Z (total_duration_minutes route)
               <= inject_Z (total_duration_minutes other))
    by (rewrite <- Zle_Qle; exact Ht).
  assert (H1 : py_max 0 (1 - total_distance_km other / 500)
               <= py_max 0 (1 - total_distance_km route / 500)).
  { apply py_max_0_mono. rewrite !Qdiv_500. Lqa.lra. }
  assert (H2 : py_max 0 (1 - inject_Z (total_duration_minutes other) / 300)
               <= py_max 0 (1 - inject_Z (total_duration_minutes route) / 300)).
  { apply py_max_0_mono. rewrite !Qdiv_300. Lqa.lra. }
  Lqa.lra.
Qed.

(** The priority score lies between 0.1 and 0.9 for a route of
    non-negative length and duration, it bottoms out at 0.1 from 500 km and
    300 minutes on, and the hospital dictionary plays no part in it. *)
Theorem route_priority_bounds (route : Route) (hospital hospital' : Value) :
  0.1 <= _calculate_route_priority route hospital
  /\ (0 <= total_distance_km route ->
      (0 <= total_duration_minutes route)%Z ->
      _calculate_route_priority route hospital <= 0.9)
  /\ (500 <= total_distance_km route ->
      (300 <= total_duration_minutes route)%Z ->
      _calculate_route_priority route hospital == 0.1)
  /\ _calculate_route_priority route hospital
     = _calculate_route_priority route hospital'.
Proof.
  unfold _calculate_route_priority. cbv zeta.
  set (d := total_distance_km route). set (t := total_duration_minutes route).
  pose proof (py_max_ge_l 0 (1 - d / 500)) as Hd0.
  pose proof (py_max_ge_l 0 (1 - inject_Z t / 300)) as Ht0.
  split; [| split; [| split]].
  - Lqa.lra.
  - intros Hd Ht.
    assert (Hq : 0 <= inject_Z t)
      by (change (inject_Z 0 <= inject_Z t); rewrite <- Zle_Qle; exact Ht).
    assert (H1 : py_max 0 (1 - d / 500) <= 1).
    { apply py_max_0_le; [discriminate |]. rewrite Qdiv_500. Lqa.lra. }
    assert (H2 : py_max 0 (1 - inject_Z t / 300) <= 1).
    { apply py_max_0_le; [discriminate |]. rewrite Qdiv_300. Lqa.lra. }
    Lqa.lra.
  - intros Hd Ht.
    assert (Hq : 300 <= inject_Z t)
      by (change (inject_Z 300 <= inject_Z t); rewrite <- Zle_Qle; exact Ht).
    rewrite (py_max_0_nonpos (1 - d / 500)) by (rewrite Qdiv_500; Lqa.lra).
    rewrite (py_max_0_nonpos (1 - inject_Z t / 300))
      by (rewrite Qdiv_300; Lqa.lra).
    reflexivity.
  - reflexivity.
Qed.

(** Of two destinations the one that is no farther from the start gets a
    route with at least the priority score of the other. *)
Theorem nearer_route_scores_higher (a b c d c' d' : Q) (mode mode' : string)
    (w w' : World) (hospital hospital' : Value) :
  haversine_distance a b c d <= haversine_distance a b c' d' ->
  exists near far,
    fst (get_route a b c d mode w) = Return near
    /\ fst (get_route a b c' d' mode' w') = Return far
    /\ _calculate_route_priority far hospital'
       <= _calculate_route_priority near hospital.
Proof.
  intros Hd. rewrite !get_route_built. eexists _, _.
  split; [reflexivity |]. split; [reflexivity |].
  apply route_priority_antitone; cbn [total_distance_km total_duration_minutes];
    [exact Hd | apply minutes_at_50_mono, Hd].
Qed.

(** The two views of a trip's duration disagree: the steps are timed at
    60 km/h and the whole at 50 km/h, so for every route of more than 5 km
    the seconds of the steps add up to less than the minutes of the route. *)
Theorem step_durations_fall_short (a b c d : Q) (mode : string) (w : World) :
  5 < haversine_distance a b c d ->
  exists r,
    get_route a b c d mode w = (Return r, tick w)
    /\ (foldr Z.add 0 (map duration_seconds (steps r))
        < 60 * total_duration_minutes r)%Z.
Proof.
  intros Hd. rewrite get_route_built. eexists. split; [reflexivity |].
  cbn [steps total_duration_minutes built_route].
  unfold _create_simplified_route_steps. cbn [app map foldr duration_seconds].
  set (D := haversine_distance a b c d) in *.
  assert (HD : 0 <= D) by (apply Qlt_le_weak; eapply Qlt_trans; [| exact Hd]; reflexivity).
  destruct (step_duration_floor D HD) as [Hs _]. rewrite Hs.
  rewrite (py_int_floor (D / 50 * 60))
    by (apply Qmult_le_0_compat; [apply Qdiv_nonneg; [exact HD | reflexivity]
                                 | discriminate]).
  pose proof (Qfloor_le (D * 0.5 * 1000 / 1000 * 60)) as H1.
  pose proof (Qlt_floor (D / 50 * 60)) as H2.
  set (s := Qfloor (D * 0.5 * 1000 / 1000 * 60)) in *.
  set (T := Qfloor (D / 50 * 60)) in *.
  assert (E1 : D * 0.5 * 1000 / 1000 * 60 == 30 * D)
    by (unfold Qdiv; change (/ 1000) with (1 # 1000); ring).
  assert (E2 : D / 50 * 60 == (6 # 5) * D)
    by (unfold Qdiv; change (/ 50) with (1 # 50); ring).
  rewrite E1 in H1. rewrite E2, inject_Z_plus in H2.
  rewrite Zlt_Qlt, !inject_Z_plus, inject_Z_mult.
  change (inject_Z 0) with 0. change (inject_Z 60) with 60.
  change (inject_Z 1) with 1 in H2.
  Lqa.lra.
Qed.

Local Abbreviation get_directions_to_hospital :=
  (get_directions_to_hospital haversine_distance clock isoformat).
Local Abbreviation get_emergency_route :=
  (get_emergency_route haversine_distance clock isoformat).

(** The directions returned for a hospital list two steps and say so in the
    summary; the steps lead from the route's start over one common point to
    the route's end; the requested transport mode is echoed, and the summary
    repeats the route's minutes as text. *)
Theorem get_directions_to_hospital_shape (a b c d : Q) (mode : string)
    (w : World) :
  exists p s1 s2 minutes,
    get_directions_to_hospital a b c d mode w = (Return p, tick w)
    /\ dict_get "steps" p = Some (VList [s1; s2])
    /\ dict_path ["summary"; "total_steps"]%string p = Some (VInt 2)
    /\ dict_path ["route"; "transport_mode"]%string p = Some (VStr mode)
    /\ dict_path ["route"; "start"]%string p = Some (point_dict (a, b))
    /\ dict_path ["route"; "end"]%string p = Some (point_dict (c, d))
    /\ dict_get "start_location" s1 = Some (point_dict (a, b))
    /\ dict_get "end_location" s1 = dict_get "start_location" s2
    /\ dict_get "end_location" s2 = Some (point_dict (c, d))
    /\ dict_path ["route"; "total_duration_minutes"]%string p
       = Some (VInt minutes)
    /\ dict_path ["summary"; "estimated_travel_time"]%string p
       = Some (VStr (pretty minutes +:+ " minutes")).
Proof.
  unfold get_directions_to_hospital, bind. rewrite get_route_built.
  eexists _, _, _, _. split; [reflexivity |].
  unfold directions_dict, _create_simplified_route_steps.
  cbn [steps built_route map app length].
  repeat split.
Qed.

(** The emergency route and the driving directions between the same two
    points describe the same trip: same start, end and distance, the same
    steps with the same instructions, lengths and end points; only the
    durations differ, and no emergency duration is longer than the driving
    one. *)
Theorem emergency_route_matches_directions (a b c d : Q) (w w' : World) :
  0 <= haversine_distance a b c d ->
  exists pe pd steps_e steps_d fast slow,
    get_emergency_route a b c d w = (Return pe, tick (tick w))
    /\ get_directions_to_hospital a b c d "driving" w' = (Return pd, tick w')
    /\ dict_path ["route"; "start"]%string pe
       = dict_path ["route"; "start"]%string pd
    /\ dict_path ["route"; "end"]%string pe
       = dict_path ["route"; "end"]%string pd
    /\ dict_path ["route"; "total_distance_km"]%string pe
       = dict_path ["route"; "total_distance_km"]%string pd
    /\ dict_path ["route"; "total_duration_minutes"]%string pe
       = Some (VInt fast)
    /\ dict_path ["route"; "total_duration_minutes"]%string pd
       = Some (VInt slow)
    /\ (fast <= slow)%Z
    /\ dict_get "steps" pe = Some (VList steps_e)
    /\ dict_get "steps" pd = Some (VList steps_d)
    /\ Forall2
         (fun se sd =>
            dict_get "instruction" se = dict_get "instruction" sd
            /\ dict_get "distance_meters" se = dict_get "distance_meters" sd
            /\ dict_get "start_location" se = dict_get "start_location" sd
            /\ dict_get "end_location" se = dict_get "end_location" sd
            /\ exists x y,
                 dict_get "duration_seconds" se = Some (VInt x)
                 /\ dict_get "duration_seconds" sd = Some (VInt y)
                 /\ (x <= y)%Z)
         steps_e steps_d.
Proof.
  intros Hd.
  unfold get_emergency_route, get_directions_to_hospital, bind.
  rewrite !get_route_built.
  destruct (scaled_duration _ (total_duration_nonneg haversine_distance a b c d Hd))
    as (Hint & _ & Hle).
  destruct (step_duration_floor (haversine_distance a b c d) Hd) as [_ Hstep].
  destruct (scaled_duration _ Hstep) as (Hsint & _ & Hsle).
  eexists _, _, _, _, _, _. split; [reflexivity |]. split; [reflexivity |].
  unfold directions_dict, _create_simplified_route_steps.
  cbn [steps built_route map app total_duration_minutes].
  do 5 (split; [reflexivity |]).
  split; [rewrite Hint; exact Hle |].
  do 2 (split; [reflexivity |]).
  do 2 (constructor;
        [do 4 (split; [reflexivity |]);
         eexists _, _; split; [reflexivity |]; split; [reflexivity |];
         cbn [duration_seconds]; rewrite Hsint; exact Hsle |]).
  constructor.
Qed.

End MoreRouting.

(** ** Ranking hospitals by route *)

Lemma advance_tick (n : nat) (w : World) : advance n (tick w) = advance (S n) w.
Proof. unfold advance, tick. cbn. f_equal. lia. Qed.

Lemma advance_0 (w : World) : advance 0 w = w.
Proof. destruct w. reflexivity. Qed.

Section Ranking.

Local Open Scope Q_scope.

Variable haversine_distance : Q -> Q -> Q -> Q -> Q.
Variable clock : nat -> datetime.
Variable isoformat : datetime -> string.

Local Abbreviation collect_routes :=
  (collect_routes haversine_distance clock isoformat).
Local Abbreviation get_multiple_routes :=
  (get_multiple_routes haversine_distance clock isoformat).
Local Abbreviation ranked_entry := (ranked_entry haversine_distance isoformat).
Local Abbreviation ranked_entries :=
  (ranked_entries haversine_distance clock isoformat).

(** One turn of the loop: the hospital's coordinates are read, and either
    that fails or a route is built at the next reading of the clock. *)
Lemma collect_routes_cons (ulat ulon : Q) (h : Value) (rest routes : list Value)
    (w : World) :
  collect_routes ulat ulon (h :: rest) routes w
  = match read_position h with
    | inl pos =>
        collect_routes ulat ulon rest
          (routes ++ [ranked_entry ulat ulon h pos (clock (ticks w))]) (tick w)
    | inr e => (inr e, w)
    end.
Proof.
  cbn [collect_routes]. unfold read_position.
  destruct (subscript h "latitude") as [lat | e]; [| reflexivity].
  destruct (subscript h "longitude") as [lon | e]; [| reflexivity].
  destruct (float_of_value lat) as [x |]; [| reflexivity].
  destruct (float_of_value lon) as [y |]; reflexivity.
Qed.

Lemma collect_routes_run (ulat ulon : Q) (hospitals : list Value)
    (positions : list (Q * Q)) :
  Forall2 (fun h pos => read_position h = inl pos) hospitals positions ->
  forall routes w,
    collect_routes ulat ulon hospitals routes w
    = (inl (routes ++ ranked_entries ulat ulon (zip hospitals positions) (ticks w)),
       advance (length hospitals) w).
Proof.
  induction 1 as [| h pos hs ps Hh Hrest IH]; intros routes w.
  - cbn. now rewrite app_nil_r, advance_0.
  - rewrite collect_routes_cons, Hh, IH. cbn [zip zip_with ranked_entries length].
    now rewrite <- app_assoc, advance_tick.
Qed.

Lemma ranked_entries_hospitals (ulat ulon : Q) (hospitals : list Value)
    (positions : list (Q * Q)) (n : nat) :
  length hospitals = length positions ->
  map (dict_get "hospital") (ranked_entries ulat ulon (zip hospitals positions) n)
  = map Some hospitals.
Proof.
  revert positions n. induction hospitals as [| h hs IH]; intros [| p ps] n E;
    try discriminate; [reflexivity |].
  cbn [zip zip_with ranked_entries map]. f_equal. apply IH. now injection E.
Qed.

(** For hospital dictionaries whose coordinates can be read,
    [get_multiple_routes] returns one entry per hospital with the hospital
    dictionary untouched, in descending order of priority score, entries of
    equal score in input order; it reads the clock once per hospital. *)
Theorem get_multiple_routes_ranked (ulat ulon : Q) (hospitals : list Value)
    (positions : list (Q * Q)) (w : World) :
  Forall2 (fun h pos => read_position h = inl pos) hospitals positions ->
  exists routes,
    get_multiple_routes ulat ulon hospitals w
    = (inl routes, advance (length hospitals) w)
    /\ routes ≡ₚ ranked_entries ulat ulon (zip hospitals positions) (ticks w)
    /\ map (dict_get "hospital") routes ≡ₚ map Some hospitals
    /\ length routes = length hospitals
    /\ StronglySorted (key_ge priority_score_of) routes
    /\ (forall k,
          with_key priority_score_of k routes
          = with_key priority_score_of k
              (ranked_entries ulat ulon (zip hospitals positions) (ticks w))).
Proof.
  intros Hpos. unfold get_multiple_routes.
  rewrite (collect_routes_run ulat ulon hospitals positions Hpos). cbn [app].
  set (entries := ranked_entries ulat ulon (zip hospitals positions) (ticks w)).
  pose proof (list_sort_reverse_perm priority_score_of entries) as Hperm.
  assert (Hlen : length hospitals = length positions)
    by (eapply Forall2_length; exact Hpos).
  eexists. split; [reflexivity |]. split; [exact Hperm |].
  split.
  { rewrite Hperm. unfold entries.
    now rewrite ranked_entries_hospitals by exact Hlen. }
  split.
  { rewrite <- (length_map Some hospitals),
            <- (ranked_entries_hospitals ulat ulon hospitals positions (ticks w) Hlen),
            length_map.
    apply Permutation_length, Hperm. }
  split; [apply list_sort_reverse_sorted |].
  intros k. apply list_sort_reverse_with_key.
Qed.

(** The first hospital whose coordinates cannot be read ends the call with
    its exception. *)
Lemma get_multiple_routes_raises (ulat ulon : Q) (good rest : list Value)
    (positions : list (Q * Q)) (bad : Value) (e : RankingExn) (w : World) :
  Forall2 (fun h pos => read_position h = inl pos) good positions ->
  read_position bad = inr e ->
  get_multiple_routes ulat ulon (good ++ bad :: rest) w
  = (inr e, advance (length good) w).
Proof.
  intros Hgood Hbad. unfold get_multiple_routes.
  assert (H : forall routes w0,
            collect_routes ulat ulon (good ++ bad :: rest) routes w0
            = (inr e, advance (length good) w0)).
  { clear w. induction Hgood as [| h pos hs ps Hh Hrest IH]; intros routes w0.
    - cbn [app length]. now rewrite collect_routes_cons, Hbad, advance_0.
    - cbn [app length]. rewrite collect_routes_cons, Hh, IH.
      now rewrite advance_tick. }
  now rewrite H.
Qed.

(** Which exception a dictionary without coordinates gives: a missing key is
    reported before the type of the other coordinate is looked at, and what
    is no dictionary at all is a [TypeError]. *)
Lemma read_position_faults (d : list (string * Value)) :
  (assoc_get "latitude" d = None ->
   read_position (VDict d) = inr (Raised (KeyError "latitude")))
  /\ (is_Some (assoc_get "latitude" d) -> assoc_get "longitude" d = None ->
      read_position (VDict d) = inr (Raised (KeyError "longitude")))
  /\ (forall lat lon,
        assoc_get "latitude" d = Some lat -> assoc_get "longitude" d = Some lon ->
        float_of_value lat = None \/ float_of_value lon = None ->
        read_position (VDict d) = inr TypeError)
  /\ read_position VNone = inr TypeError
  /\ (forall l, read_position (VList l) = inr TypeError).
Proof.
  unfold read_position. cbn [subscript]. repeat split.
  - intros ->. reflexivity.
  - intros [lat ->] ->. reflexivity.
  - intros lat lon -> -> [H | H]; rewrite H; [reflexivity |].
    destruct (float_of_value lat); reflexivity.
Qed.

(** A hospital dictionary without a ["latitude"] or a ["longitude"] key ends
    the call with the [KeyError] of the first key that is missing: nothing
    is returned, not even for the hospitals before it, for each of which the
    clock has been read; a hospital that is no dictionary ends it with a
    [TypeError]. *)
Theorem get_multiple_routes_missing_key (ulat ulon : Q) (good rest : list Value)
    (positions : list (Q * Q)) (w : World) :
  Forall2 (fun h pos => read_position h = inl pos) good positions ->
  (forall d,
     assoc_get "latitude" d = None ->
     get_multiple_routes ulat ulon (good ++ VDict d :: rest) w
     = (inr (Raised (KeyError "latitude")), advance (length good) w))
  /\ (forall d,
        is_Some (assoc_get "latitude" d) -> assoc_get "longitude" d = None ->
        get_multiple_routes ulat ulon (good ++ VDict d :: rest) w
        = (inr (Raised (KeyError "longitude")), advance (length good) w))
  /\ (forall l,
        get_multiple_routes ulat ulon (good ++ VList l :: rest) w
        = (inr TypeError, advance (length good) w))
  /\ get_multiple_routes ulat ulon (good ++ VNone :: rest) w
     = (inr TypeError, advance (length good) w).
Proof.
  intros Hgood. repeat split; intros;
    eapply get_multiple_routes_raises; try exact Hgood;
    solve [ now apply read_position_faults | reflexivity ].
Qed.

End Ranking.

(** ** More on the navigation sessions *)

(** Elapsed microseconds as whole minutes, rounded toward zero. *)
Lemma whole_minutes (elapsed : Z) :
  py_int (total_seconds elapsed / 60) = (elapsed ÷ 60000000)%Z.
Proof.
  unfold py_int, total_seconds. cbn. now rewrite !Z.mul_1_r.
Qed.

(** [round(x, 2)] is within half a hundredth of [x]. *)
Lemma py_round_2_error (x : Q) : (Qabs (py_round x 2 - x) <= 1 # 200)%Q.
Proof.
  unfold py_round. cbv zeta.
  change (10 ^ Z.of_nat 2)%Z with 100%Z.
  set (scaled := (x * inject_Z 100)%Q).
  set (lo := Qfloor scaled).
  pose proof (Qfloor_le scaled) as Hlo. pose proof (Qlt_floor scaled) as Hhi.
  fold lo in Hlo, Hhi. rewrite inject_Z_plus in Hhi.
  change (inject_Z 1) with 1%Q in Hhi.
  assert (Hx : (scaled == x * 100)%Q) by reflexivity.
  assert (Hdiv : forall u : Z,
            (inject_Z u / inject_Z 100 == inject_Z u * (1 # 100))%Q)
    by (intros u; reflexivity).
  apply Qabs_Qle_condition.
  destruct (scaled - inject_Z lo ?= 1 # 2)%Q eqn:Hc.
  - apply Qeq_alt in Hc.
    destruct (Z.even lo); rewrite Hdiv; [| rewrite inject_Z_plus];
      try change (inject_Z 1) with 1%Q; split; Lqa.lra.
  - apply Qlt_alt in Hc. rewrite Hdiv. split; Lqa.lra.
  - apply Qgt_alt in Hc. rewrite Hdiv, inject_Z_plus.
    change (inject_Z 1) with 1%Q. split; Lqa.lra.
Qed.

Section MoreNavigation.

Local Open Scope Q_scope.

Variable haversine_distance : Q -> Q -> Q -> Q -> Q.
Variable clock : nat -> datetime.
Variable isoformat : datetime -> string.

Local Abbreviation start_navigation :=
  (start_navigation haversine_distance clock isoformat).
Local Abbreviation update_navigation :=
  (update_navigation haversine_distance clock).
Local Abbreviation end_navigation := (end_navigation clock).
Local Abbreviation started_session := (started_session haversine_distance clock).

(** The session table only ever grows: an update or an end neither adds nor
    removes an identifier, known or not, and a start adds the identifier it
    returns and removes none. *)
Theorem navigation_table_keys (u : string) (a b c d : Q) (mode : string)
    (k : string) (lat lon : Q) (w : World) :
  dom (active_navigations (snd (update_navigation k lat lon w)))
  = dom (active_navigations w)
  /\ dom (active_navigations (snd (end_navigation k w)))
     = dom (active_navigations w)
  /\ dom (active_navigations (snd (start_navigation u a b c d mode w)))
     = {[navigation_id_of u (clock (ticks w))]} ∪ dom (active_navigations w).
Proof.
  split; [| split].
  - destruct (active_navigations w !! k) as [s |] eqn:Hk.
    + rewrite (update_navigation_known haversine_distance clock k lat lon w s Hk).
      cbn [snd active_navigations]. rewrite dom_insert_L.
      apply subseteq_union_1_L, singleton_subseteq_l.
      eapply elem_of_dom_2, Hk.
    + now rewrite (update_navigation_unknown haversine_distance clock k lat lon w Hk).
  - destruct (active_navigations w !! k) as [s |] eqn:Hk.
    + rewrite (end_navigation_known clock k w s Hk).
      cbn [snd active_navigations]. rewrite dom_insert_L.
      apply subseteq_union_1_L, singleton_subseteq_l.
      eapply elem_of_dom_2, Hk.
    + now rewrite (end_navigation_unknown clock k w Hk).
  - destruct (start_navigation_run haversine_distance clock isoformat
                u a b c d mode w) as (p & -> & _).
    cbn [snd active_navigations]. apply dom_insert_L.
Qed.

(** Ending a session twice is accepted: the second call neither fails nor
    reports that the session was over; it stamps [ended_at] anew and
    reports the minutes from the unchanged [started_at] to its own reading
    of the clock. *)
Theorem end_navigation_twice (k : string) (w : World) (s : NavigationSession) :
  active_navigations w !! k = Some s ->
  exists p1 w1 p2 w2 s2,
    end_navigation k w = (Return p1, w1)
    /\ end_navigation k w1 = (Return p2, w2)
    /\ dict_has "error" p2 = false
    /\ dict_get "status" p2 = Some (VStr "completed")
    /\ dict_get "duration_minutes" p1
       = Some (VInt ((clock (ticks w) - started_at s) ÷ 60000000))
    /\ dict_get "duration_minutes" p2
       = Some (VInt ((clock (S (ticks w)) - started_at s) ÷ 60000000))
    /\ active_navigations w2 !! k = Some s2
    /\ started_at s2 = started_at s
    /\ ended_at s2 = Some (clock (S (ticks w))).
Proof.
  intros Hk. rewrite (end_navigation_known clock k w s Hk).
  eexists _, _, _, _, _. split; [reflexivity |].
  split.
  { apply end_navigation_known. cbn [active_navigations].
    apply lookup_insert_eq. }
  cbn [ticks active_navigations started_at ended_session].
  rewrite lookup_insert_eq.
  split; [reflexivity |]. split; [reflexivity |].
  split; [cbn; now rewrite whole_minutes |].
  split; [cbn; now rewrite whole_minutes |].
  repeat split.
Qed.

(** The identifier [start_navigation] returns is accepted by
    [update_navigation] and [end_navigation] right away: the update answers
    with step 0 and no error, the end with "completed" and the whole
    minutes between the two readings of the clock. *)
Theorem start_then_use (u : string) (a b c d : Q) (mode : string)
    (lat lon : Q) (w : World) :
  exists p w1 i,
    start_navigation u a b c d mode w = (Return p, w1)
    /\ dict_get "navigation_id" p = Some (VStr i)
    /\ (exists q w2,
          update_navigation i lat lon w1 = (Return q, w2)
          /\ dict_has "error" q = false
          /\ dict_get "navigation_id" q = Some (VStr i)
          /\ dict_get "current_step" q = Some (VInt 0))
    /\ (exists q w2,
          end_navigation i w1 = (Return q, w2)
          /\ dict_has "error" q = false
          /\ dict_get "status" q = Some (VStr "completed")
          /\ dict_get "duration_minutes" q
             = Some (VInt ((clock (3 + ticks w) - clock (2 + ticks w))
                           ÷ 60000000))).
Proof.
  destruct (start_navigation_run haversine_distance clock isoformat
              u a b c d mode w) as (p & Hp & Hi & _).
  eexists p, _, _. split; [exact Hp |]. split; [exact Hi |].
  set (i := navigation_id_of u (clock (ticks w))).
  set (w1 := {| ticks := _; active_navigations := _ |}).
  assert (Hk : active_navigations w1 !! i = Some (started_session u a b c d mode w))
    by apply lookup_insert_eq.
  split.
  - rewrite (update_navigation_known haversine_distance clock i lat lon w1 _ Hk).
    eexists _, _. split; [reflexivity |]. repeat split.
  - rewrite (end_navigation_known clock i w1 _ Hk).
    eexists _, _. split; [reflexivity |]. split; [reflexivity |].
    split; [reflexivity |]. cbn. now rewrite whole_minutes.
Qed.

(** The remaining distance [update_navigation] reports is within 5 metres
    of the distance from the given position to the route's end, and the
    remaining minutes are those [calculate_distance] gives for these two
    points: they come from the distance as measured, not from the rounded
    figure shown beside them. *)
Theorem update_navigation_accuracy (k : string) (lat lon : Q) (w : World)
    (s : NavigationSession) :
  active_navigations w !! k = Some s ->
  let measured :=
    calculate_distance haversine_distance
      (mkLocation lat lon None)
      (mkLocation (fst (end_location (route s)))
                  (snd (end_location (route s))) None) in
  exists p w' shown,
    update_navigation k lat lon w = (Return p, w')
    /\ dict_get "remaining_distance_km" p = Some (VFloat shown)
    /\ Qabs (shown - distance_km measured) <= 1 # 200
    /\ dict_get "estimated_time_remaining_minutes" p
       = Some (VInt (estimated_travel_time_minutes measured)).
Proof.
  intros Hk measured.
  rewrite (update_navigation_known haversine_distance clock k lat lon w s Hk).
  eexists _, _, _. split; [reflexivity |]. split; [reflexivity |].
  split; [apply py_round_2_error | reflexivity].
Qed.

(** Reaching the destination does not end a session: an update from the
    route's own end point reports no distance and no time left, and the
    session stays as it was but for position and time stamp. *)
Theorem update_navigation_at_destination (k : string) (w : World)
    (s : NavigationSession) :
  active_navigations w !! k = Some s ->
  haversine_distance (fst (end_location (route s))) (snd (end_location (route s)))
    (fst (end_location (route s))) (snd (end_location (route s))) == 0 ->
  exists p w' s' shown,
    update_navigation k (fst (end_location (route s)))
      (snd (end_location (route s))) w = (Return p, w')
    /\ dict_get "remaining_distance_km" p = Some (VFloat shown)
    /\ shown == 0
    /\ dict_get "estimated_time_remaining_minutes" p = Some (VInt 0)
    /\ dict_get "status" p = Some (VStr "active")
    /\ dict_get "current_step" p = Some (VInt (current_step s))
    /\ active_navigations w' !! k = Some s'
    /\ status s' = status s
    /\ ended_at s' = ended_at s.
Proof.
  intros Hk H0.
  rewrite (update_navigation_known haversine_distance clock k _ _ w s Hk).
  eexists _, _, _, _. split; [reflexivity |]. split; [reflexivity |].
  set (x := haversine_distance _ _ _ _) in *.
  split.
  { pose proof (py_round_2_error 0) as H. rewrite Qabs_Qle_condition in H.
    assert (E : py_round x 2 = py_round 0 2).
    { unfold py_round. cbv zeta.
      assert (Es : x * inject_Z (10 ^ Z.of_nat 2) == 0 * inject_Z (10 ^ Z.of_nat 2))
        by (rewrite H0; reflexivity).
      rewrite (Qfloor_comp _ _ Es).
      assert (Ec : (x * inject_Z (10 ^ Z.of_nat 2)
                    - inject_Z (Qfloor (0 * inject_Z (10 ^ Z.of_nat 2))) ?= 1 # 2)
                   = (0 * inject_Z (10 ^ Z.of_nat 2)
                      - inject_Z (Qfloor (0 * inject_Z (10 ^ Z.of_nat 2))) ?= 1 # 2)).
      { apply Qcompare_comp; [| reflexivity]. rewrite Es. reflexivity. }
      now rewrite Ec. }
    rewrite E. reflexivity. }
  split.
  { assert (E : x / 50 * 60 == 0) by (rewrite H0; reflexivity).
    f_equal. f_equal. rewrite py_int_floor by (rewrite E; discriminate).
    now rewrite (Qfloor_comp _ _ E). }
  cbn [active_navigations]. rewrite lookup_insert_eq. repeat split.
Qed.

End MoreNavigation.

(** * Worked examples *)

Example grid_distance_one_degree : grid_distance 0 0 0 1 = (111195 # 1000)%Q.
Proof. reflexivity. Qed.

Example timestamp_str_examples :
  timestamp_str 1762196400250000 = "1762196400.25"%string
  /\ timestamp_str 1762196400000000 = "1762196400.0"%string
  /\ timestamp_str 1762196400000001 = "1762196400.000001"%string.
Proof. repeat split. Qed.

Example py_int_truncates : py_int (7 # 2) = 3%Z /\ py_int (-7 # 2) = (-3)%Z.
Proof. split; reflexivity. Qed.

Example py_round_half_even :
  py_round (1 # 8) 2 = (12 # 100)%Q /\ py_round (3 # 8) 2 = (38 # 100)%Q.
Proof. split; reflexivity. Qed.

(** Five hospitals, one out of reach, two at the same distance. *)
Example find_nearest_hospitals_example :
  map (fun p => (hospital_name (fst p), distance_km (snd p)))
    (find_nearest_hospitals grid_distance 0 0
       [mkHospital 1 "a" 3 0; mkHospital 2 "b" 1 0; mkHospital 3 "c" 0 1;
        mkHospital 4 "d" 9 0; mkHospital 5 "e" (1 # 2) 0] 400)
  = [("e"%string, (111195 # 2000)%Q); ("b"%string, (111195 # 1000)%Q);
     ("c"%string, (111195 # 1000)%Q); ("a"%string, (333585 # 1000)%Q)].
Proof. vm_compute. reflexivity. Qed.

(** No hospital within 400 km, and no hospital at all. *)
Example find_nearest_hospitals_none :
  find_nearest_hospitals grid_distance 0 0 [mkHospital 4 "d" 9 0] 400 = []
  /\ find_nearest_hospitals grid_distance 0 0 [] 400 = [].
Proof. split; reflexivity. Qed.

(** The scorer on a record with donor type O-: equal types, an accepted
    pair, no recipient type; and with donor type A-: a refused pair, and
    equal types with the score clamped at 1. *)
Example score_examples :
  let oa := mkOrganAvailability (Some "O-"%string) (Some "good"%string) 1 in
  (get_organ_availability_score oa (Some "O-"%string) == 0.9
   /\ get_organ_availability_score oa (Some "AB+"%string) == 0.8
   /\ get_organ_availability_score oa None == 0.6)%Q
  /\ (get_organ_availability_score
        (mkOrganAvailability (Some "A-"%string) (Some "excellent"%string) 1)
        (Some "O-"%string) == 0.7)%Q
  /\ (get_organ_availability_score
        (mkOrganAvailability (Some "A-"%string) (Some "excellent"%string) 1)
        (Some "A-"%string) == 1)%Q.
Proof. repeat split. Qed.

Lemma organ_availability_score_witness :
  let oa := mkOrganAvailability (Some "O-"%string) (Some "excellent"%string) 1 in
  (get_organ_availability_score oa (Some "AB+"%string)
   == Qmin 1 (0.5 + blood_bonus (Some "AB+"%string) "O-"
              + condition_bonus (condition oa))
   /\ 0 <= get_organ_availability_score oa (Some "AB+"%string) <= 1)%Q
  /\ (forall d, _is_blood_type_compatible "O-" d = true <-> d = "O-"%string)
  /\ (forall d, d ∈ blood_types -> _is_blood_type_compatible "AB+" d = true).
Proof.
  intros oa.
  destruct (organ_availability_score_spec oa (Some "AB+"%string) "O-"%string)
    as (H1 & H2 & H3 & H4); [reflexivity | discriminate |].
  exact (conj (conj H1 H2) (conj H3 H4)).
Defined.

Lemma get_emergency_route_witness :
  (0 <= grid_distance 0 0 0 1)%Q
  /\ exists standard payload,
       get_route grid_distance ticking_clock 0 0 0 1 "driving" empty_world
       = (Return standard, tick empty_world)
       /\ get_emergency_route grid_distance ticking_clock epoch_format 0 0 0 1
            empty_world
          = (Return payload, tick (tick empty_world))
       /\ let emergency :=
            Qfloor (0.8 * inject_Z (total_duration_minutes standard)) in
          dict_path ["route"; "total_duration_minutes"]%string payload
            = Some (VInt emergency)
          /\ (emergency <= total_duration_minutes standard)%Z
          /\ dict_path ["route"; "transport_mode"]%string payload
             = Some (VStr "emergency")
          /\ dict_path ["emergency_info"; "estimated_time_saved"]%string payload
             = Some (VStr (pretty (total_duration_minutes standard - emergency)%Z
                           +:+ " minutes"))
          /\ exists step_dicts,
               dict_get "steps" payload = Some (VList step_dicts)
               /\ Forall2
                    (fun sd s =>
                       dict_get "duration_seconds" sd
                       = Some (VInt (Qfloor (0.8 * inject_Z (duration_seconds s)))))
                    step_dicts (steps standard).
Proof.
  assert (H : (0 <= grid_distance 0 0 0 1)%Q) by discriminate.
  split; [exact H |].
  exact (get_emergency_route_spec grid_distance ticking_clock epoch_format
           0 0 0 1 empty_world empty_world H).
Defined.

(** The numbers behind the witness: 133 minutes become 106, 27 are saved,
    and each step of 3335 seconds becomes one of 2668. *)
Example get_emergency_route_example :
  match fst (get_emergency_route grid_distance ticking_clock epoch_format
               0 0 0 1 empty_world) with
  | Return payload =>
      dict_path ["route"; "total_duration_minutes"]%string payload
        = Some (VInt 106)
      /\ dict_path ["emergency_info"; "estimated_time_saved"]%string payload
         = Some (VStr "27 minutes")
      /\ (dict_get "duration_seconds" <$>
            match dict_get "steps" payload with
            | Some (VList l) => l
            | _ => []
            end) = [Some (VInt 2668); Some (VInt 2668)]
  | Raise _ => False
  end.
Proof. vm_compute. repeat split. Qed.

(** The scenario of the specification: a started session is active and its
    first instruction is the first step's; ended at once it is completed
    after zero minutes; a second update or end of an id that was never
    issued is answered with the error payload. *)
Example navigation_scenario :
  let started := start_navigation grid_distance ticking_clock epoch_format
                   "u1" 0 0 0 1 "driving" empty_world in
  let ended := end_navigation ticking_clock "nav_u1_1762196400.25" (snd started) in
  let missing := update_navigation grid_distance ticking_clock
                   "nav_u2_1762196400.25" 0 0 (snd ended) in
  (exists p, fst started = Return p
     /\ dict_get "navigation_id" p = Some (VStr "nav_u1_1762196400.25")
     /\ dict_path ["current_step"; "instruction"]%string p
        = Some (VStr "Start navigation to destination"))
  /\ (status <$> active_navigations (snd started) !! "nav_u1_1762196400.25"%string)
     = Some "active"%string
  /\ fst ended
     = Return (VDict [("navigation_id"%string, VStr "nav_u1_1762196400.25");
                      ("status"%string, VStr "completed");
                      ("duration_minutes"%string, VInt 0)])
  /\ (status <$> active_navigations (snd ended) !! "nav_u1_1762196400.25"%string)
     = Some "completed"%string
  /\ missing = (Return not_found, snd ended).
Proof.
  vm_compute. split; [eexists; repeat split |]. repeat split.
Qed.

Lemma update_navigation_frame_witness :
  let k := "nav_u1_1762196400.25"%string in
  let s := started_session grid_distance ticking_clock
             "u1" 0 0 0 1 "driving" empty_world in
  active_navigations world_started !! k = Some s
  /\ exists p w' s',
       update_navigation grid_distance ticking_clock k 0 (1 # 2) world_started
       = (Return p, w')
       /\ active_navigations w' = <[k := s']> (active_navigations world_started)
       /\ last_update s' = Some (ticking_clock (ticks world_started))
       /\ current_position s' = Some (0, 1 # 2)%Q
       /\ route s' = route s
       /\ current_step s' = current_step s
       /\ status s' = status s
       /\ user_id s' = user_id s
       /\ started_at s' = started_at s
       /\ id s' = id s
       /\ ended_at s' = ended_at s
       /\ dict_get "current_step" p = Some (VInt (current_step s))
       /\ dict_get "remaining_distance_km" p
          = Some (VFloat
                    (py_round
                       (distance_km
                          (calculate_distance grid_distance
                             (mkLocation 0 (1 # 2) None)
                             (mkLocation (fst (end_location (route s)))
                                         (snd (end_location (route s))) None)))
                       2)).
Proof.
  intros k s.
  assert (H : active_navigations world_started !! k = Some s)
    by (vm_compute; reflexivity).
  split; [exact H |].
  exact (update_navigation_frame grid_distance ticking_clock k 0 (1 # 2)
           world_started s H).
Defined.

Lemma update_after_end_witness :
  let k := "nav_u1_1762196400.25"%string in
  let s := ended_session
             (started_session grid_distance ticking_clock
                "u1" 0 0 0 1 "driving" empty_world)
             (ticking_clock 3) in
  (active_navigations world_ended !! k = Some s
   /\ status s = "completed"%string)
  /\ exists p w' s',
       update_navigation grid_distance ticking_clock k 0 (1 # 2) world_ended
       = (Return p, w')
       /\ dict_has "error" p = false
       /\ dict_get "status" p = Some (VStr "active")
       /\ active_navigations w' !! k = Some s'
       /\ status s' = "completed"%string
       /\ last_update s' = Some (ticking_clock (ticks world_ended))
       /\ current_position s' = Some (0, 1 # 2)%Q.
Proof.
  intros k s.
  assert (H : active_navigations world_ended !! k = Some s)
    by (vm_compute; reflexivity).
  split; [split; [exact H | reflexivity] |].
  exact (update_after_end grid_distance ticking_clock k 0 (1 # 2)
           world_ended s H eq_refl).
Defined.


Lemma completed_stays_completed_witness :
  let k := "nav_u1_1762196400.25"%string in
  let s := ended_session
             (started_session grid_distance ticking_clock
                "u1" 0 0 0 1 "driving" empty_world)
             (ticking_clock 3) in
  (active_navigations world_ended !! k = Some s
   /\ status s = "completed"%string)
  /\ (exists s',
        active_navigations
          (snd (update_navigation grid_distance ticking_clock k 0 (1 # 2)
                  world_ended)) !! k = Some s'
        /\ status s' = "completed"%string)
  /\ (exists s',
        active_navigations (snd (end_navigation ticking_clock k world_ended)) !! k
        = Some s'
        /\ status s' = "completed"%string).
Proof.
  intros k s.
  assert (H : active_navigations world_ended !! k = Some s)
    by (vm_compute; reflexivity).
  split; [split; [exact H | reflexivity] |].
  exact (completed_stays_completed grid_distance ticking_clock k k 0 (1 # 2)
           world_ended s H eq_refl).
Defined.

(** ** Double precision at concrete inputs *)

Section DoublePrecisionExamples.

Import Floats.PrimFloat.

Local Open Scope float_scope.

(** The stand-in agrees with what the source's formula returns for these
    two pairs of points of the equator: 33.3 km and 422.5 km. *)
Example equator_distance_examples :
  Binary64.equator_distance 0 0 0 0.2994740947709372 = 33.3
  /\ Binary64.equator_distance 0 0 0 3.799633785006636 = 422.5.
Proof. split; reflexivity. Qed.

(** Where rounding shows: 422.5 km at 50 km/h are 507 minutes, and
    [calculate_distance] returns 506, because [422.5 / 50] is rounded down
    to the next double below 8.45 before it is multiplied by 60. *)
Example estimated_minutes_rounding :
  (exists r,
     Binary64.calculate_distance Binary64.equator_distance
       (Binary64.mkLocation 0 0 None)
       (Binary64.mkLocation 0 3.799633785006636 None) = inl r
     /\ Binary64.distance_km r = 422.5
     /\ Binary64.estimated_travel_time_minutes r = 506%Z)
  /\ py_int (422.5 / 50 * 60)%Q = 507%Z.
Proof. split; [eexists; split; [reflexivity | split; reflexivity] | reflexivity]. Qed.

Lemma get_route_two_steps_rounded_witness :
  let dist := Binary64.equator_distance 0 0 0 0.2994740947709372 in
  (Binary64.py_int (dist / 50 * 60) = inl 39%Z
   /\ Binary64.py_int (dist * 0.5 * 1000 / 1000 * 60) = inl 998%Z)
  /\ exists r s1 s2,
       Binary64.get_route Binary64.equator_distance ticking_clock
         0 0 0 0.2994740947709372 "driving" empty_world
       = (inl r, tick empty_world)
       /\ Binary64.steps r = [s1; s2]
       /\ Binary64.step_start_location s1 = (0, 0)
       /\ Binary64.step_end_location s1
          = ((0 + 0) / 2, (0 + 0.2994740947709372) / 2)
       /\ Binary64.step_start_location s2
          = ((0 + 0) / 2, (0 + 0.2994740947709372) / 2)
       /\ Binary64.step_end_location s2 = (0, 0.2994740947709372)
       /\ Binary64.step_start_location s1 = Binary64.start_location r
       /\ Binary64.step_end_location s2 = Binary64.end_location r
       /\ Binary64.total_distance_km r = dist
       /\ Forall (fun s =>
                    Binary64.distance_meters s
                    = Binary64.total_distance_km r * 0.5 * 1000
                    /\ Binary64.py_int (Binary64.distance_meters s / 1000 * 60)
                       = inl (Binary64.duration_seconds s)
                    /\ ((0 <= Binary64.value
                                (Binary64.distance_meters s / 1000 * 60))%Q ->
                        Binary64.duration_seconds s
                        = Qfloor (Binary64.value
                                    (Binary64.distance_meters s / 1000 * 60))))
            [s1; s2].
Proof.
  intros dist.
  assert (Hm : Binary64.py_int (dist / 50 * 60) = inl 39%Z) by reflexivity.
  assert (Hs : Binary64.py_int (dist * 0.5 * 1000 / 1000 * 60) = inl 998%Z)
    by reflexivity.
  split; [exact (conj Hm Hs) |].
  exact (get_route_two_steps_rounded Binary64.equator_distance ticking_clock
           0 0 0 0.2994740947709372 "driving" empty_world 39 998 Hm Hs).
Defined.

(** C5, as stated, fails: from (0, 0) to (0, 0.2994740947709372), 33.3 km
    apart, each step is 16650 metres long, and 16650 / 1000 * 60 = 999, but
    the step lasts 998 seconds: [16650.0 / 1000] is the double just below
    16.65, and sixty times it the double just below 999. *)
Lemma get_route_step_duration_not_floor :
  exists r s1 s2,
    fst (Binary64.get_route Binary64.equator_distance ticking_clock
           0 0 0 0.2994740947709372 "driving" empty_world) = inl r
    /\ Binary64.steps r = [s1; s2]
    /\ Binary64.total_distance_km r = 33.3
    /\ Binary64.distance_meters s1 = 16650
    /\ (Binary64.value (Binary64.distance_meters s1) == 16650)%Q
    /\ Binary64.duration_seconds s1 = 998%Z
    /\ Qfloor (Binary64.value (Binary64.distance_meters s1) / 1000 * 60) = 999%Z
    /\ Binary64.duration_seconds s1
       <> Qfloor (Binary64.value (Binary64.distance_meters s1) / 1000 * 60).
Proof.
  eexists _, _, _. split; [vm_compute; reflexivity |].
  repeat split; try reflexivity. discriminate.
Qed.

End DoublePrecisionExamples.

(** ** The further properties at concrete inputs *)

Lemma find_nearest_hospitals_radius_witness :
  let hospitals :=
    [mkHospital 1 "a" 3 0; mkHospital 2 "b" 1 0; mkHospital 3 "c" 0 1;
     mkHospital 4 "d" 9 0; mkHospital 5 "e" (1 # 2) 0] in
  (120 <= 400)%Q
  /\ find_nearest_hospitals grid_distance 0 0 hospitals 120
     = List.filter (fun p => Qle_bool (distance_km (snd p)) 120)
         (find_nearest_hospitals grid_distance 0 0 hospitals 400)
  /\ find_nearest_hospitals grid_distance 0 0 hospitals 120
     `prefix_of` find_nearest_hospitals grid_distance 0 0 hospitals 400.
Proof.
  intros hospitals.
  assert (H : (120 <= 400)%Q) by discriminate.
  split; [exact H |].
  exact (find_nearest_hospitals_radius grid_distance 0 0 120 400 hospitals H).
Defined.

Lemma calculate_route_time_default_witness :
  calculate_route_time grid_distance 0 0 0 1 "helicopter"
  = Some (calculate_distance grid_distance
            (mkLocation 0 0 None) (mkLocation 0 1 None)).
Proof.
  apply (calculate_route_time_default grid_distance 0 0 0 1 "helicopter");
    discriminate.
Defined.

Lemma calculate_route_time_modes_witness :
  (0 <= grid_distance 0 0 0 1)%Q
  /\ exists walking cycling transit driving,
       calculate_route_time grid_distance 0 0 0 1 "walking" = Some walking
       /\ calculate_route_time grid_distance 0 0 0 1 "cycling" = Some cycling
       /\ calculate_route_time grid_distance 0 0 0 1 "public_transport"
          = Some transit
       /\ calculate_route_time grid_distance 0 0 0 1 "driving" = Some driving
       /\ (0 <= estimated_travel_time_minutes driving
           <= estimated_travel_time_minutes transit)%Z
       /\ (estimated_travel_time_minutes transit
           <= estimated_travel_time_minutes cycling)%Z
       /\ (estimated_travel_time_minutes cycling
           <= estimated_travel_time_minutes walking)%Z
       /\ distance_km walking = distance_km driving.
Proof.
  assert (H : (0 <= grid_distance 0 0 0 1)%Q) by discriminate.
  split; [exact H |].
  exact (calculate_route_time_modes grid_distance 0 0 0 1 H).
Defined.

Lemma score_never_clamped_witness :
  let oa := mkOrganAvailability (Some "O-"%string) (Some "excellent"%string) 1 in
  (get_organ_availability_score oa (Some "AB+"%string)
   == 0.5 + blood_bonus (Some "AB+"%string) "O-" + condition_bonus (condition oa))%Q
  /\ ((get_organ_availability_score oa (Some "AB+"%string) == 1)%Q
      <-> Some "AB+"%string = Some "O-"%string
          /\ condition oa = Some "excellent"%string).
Proof.
  intros oa.
  apply (score_never_clamped oa (Some "AB+"%string) "O-"%string);
    [reflexivity | discriminate].
Defined.

Lemma score_prefers_exact_witness :
  let oa := mkOrganAvailability (Some "O-"%string) (Some "good"%string) 1 in
  (get_organ_availability_score oa None
   <= get_organ_availability_score oa (Some "AB+"%string)
   <= get_organ_availability_score oa (Some "O-"%string))%Q.
Proof.
  intros oa.
  apply (score_prefers_exact oa (Some "AB+"%string) "O-"%string);
    [reflexivity | discriminate].
Defined.

Lemma nearer_route_scores_higher_witness :
  (grid_distance 0 0 0 1 <= grid_distance 0 0 0 3)%Q
  /\ exists near far,
       fst (get_route grid_distance ticking_clock 0 0 0 1 "driving" empty_world)
       = Return near
       /\ fst (get_route grid_distance ticking_clock 0 0 0 3 "walking" empty_world)
          = Return far
       /\ (_calculate_route_priority far (hospital_dict "middle" 0 3)
           <= _calculate_route_priority near (hospital_dict "near" 0 1))%Q.
Proof.
  assert (H : (grid_distance 0 0 0 1 <= grid_distance 0 0 0 3)%Q) by discriminate.
  split; [exact H |].
  exact (nearer_route_scores_higher grid_distance ticking_clock 0 0 0 1 0 3
           "driving" "walking" empty_world empty_world
           (hospital_dict "near" 0 1) (hospital_dict "middle" 0 3) H).
Defined.

Lemma step_durations_fall_short_witness :
  (5 < grid_distance 0 0 0 1)%Q
  /\ exists r,
       get_route grid_distance ticking_clock 0 0 0 1 "driving" empty_world
       = (Return r, tick empty_world)
       /\ (foldr Z.add 0 (map duration_seconds (steps r))
           < 60 * total_duration_minutes r)%Z.
Proof.
  assert (H : (5 < grid_distance 0 0 0 1)%Q) by reflexivity.
  split; [exact H |].
  exact (step_durations_fall_short grid_distance ticking_clock 0 0 0 1
           "driving" empty_world H).
Defined.

Lemma emergency_route_matches_directions_witness :
  (0 <= grid_distance 0 0 0 1)%Q
  /\ exists pe pd steps_e steps_d fast slow,
       get_emergency_route grid_distance ticking_clock epoch_format 0 0 0 1
         empty_world
       = (Return pe, tick (tick empty_world))
       /\ get_directions_to_hospital grid_distance ticking_clock epoch_format
            0 0 0 1 "driving" empty_world
          = (Return pd, tick empty_world)
       /\ dict_path ["route"; "start"]%string pe
          = dict_path ["route"; "start"]%string pd
       /\ dict_path ["route"; "end"]%string pe
          = dict_path ["route"; "end"]%string pd
       /\ dict_path ["route"; "total_distance_km"]%string pe
          = dict_path ["route"; "total_distance_km"]%string pd
       /\ dict_path ["route"; "total_duration_minutes"]%string pe
          = Some (VInt fast)
       /\ dict_path ["route"; "total_duration_minutes"]%string pd
          = Some (VInt slow)
       /\ (fast <= slow)%Z
       /\ dict_get "steps" pe = Some (VList steps_e)
       /\ dict_get "steps" pd = Some (VList steps_d)
       /\ Forall2
            (fun se sd =>
               dict_get "instruction" se = dict_get "instruction" sd
               /\ dict_get "distance_meters" se = dict_get "distance_meters" sd
               /\ dict_get "start_location" se = dict_get "start_location" sd
               /\ dict_get "end_location" se = dict_get "end_location" sd
               /\ exists x y,
                    dict_get "duration_seconds" se = Some (VInt x)
                    /\ dict_get "duration_seconds" sd = Some (VInt y)
                    /\ (x <= y)%Z)
            steps_e steps_d.
Proof.
  assert (H : (0 <= grid_distance 0 0 0 1)%Q) by discriminate.
  split; [exact H |].
  exact (emergency_route_matches_directions grid_distance ticking_clock
           epoch_format 0 0 0 1 empty_world empty_world H).
Defined.

Lemma get_multiple_routes_ranked_witness :
  let positions := [(0, 6); (0, 1); (0, 3)]%Q in
  Forall2 (fun h pos => read_position h = inl pos) sample_hospitals positions
  /\ exists routes,
       get_multiple_routes grid_distance ticking_clock epoch_format 0 0
         sample_hospitals empty_world
       = (inl routes, advance (length sample_hospitals) empty_world)
       /\ routes ≡ₚ ranked_entries grid_distance ticking_clock epoch_format 0 0
                      (zip sample_hospitals positions) (ticks empty_world)
       /\ map (dict_get "hospital") routes ≡ₚ map Some sample_hospitals
       /\ length routes = length sample_hospitals
       /\ StronglySorted (key_ge priority_score_of) routes
       /\ (forall k,
             with_key priority_score_of k routes
             = with_key priority_score_of k
                 (ranked_entries grid_distance ticking_clock epoch_format 0 0
                    (zip sample_hospitals positions) (ticks empty_world))).
Proof.
  intros positions.
  assert (H : Forall2 (fun h pos => read_position h = inl pos)
                sample_hospitals positions)
    by (repeat constructor).
  split; [exact H |].
  exact (get_multiple_routes_ranked grid_distance ticking_clock epoch_format
           0 0 sample_hospitals positions empty_world H).
Defined.

(** The second of three hospitals has lost its latitude, or is no
    dictionary at all. *)
Lemma get_multiple_routes_missing_key_witness :
  let good := [hospital_dict "near" 0 1] in
  let rest := [hospital_dict "far" 0 6] in
  let run := get_multiple_routes grid_distance ticking_clock epoch_format 0 0 in
  Forall2 (fun h pos => read_position h = inl pos) good [(0, 1)%Q]
  /\ (forall d,
        assoc_get "latitude" d = None ->
        run (good ++ VDict d :: rest) empty_world
        = (inr (Raised (KeyError "latitude")), advance (length good) empty_world))
  /\ (forall d,
        is_Some (assoc_get "latitude" d) -> assoc_get "longitude" d = None ->
        run (good ++ VDict d :: rest) empty_world
        = (inr (Raised (KeyError "longitude")), advance (length good) empty_world))
  /\ (forall l,
        run (good ++ VList l :: rest) empty_world
        = (inr TypeError, advance (length good) empty_world))
  /\ run (good ++ VNone :: rest) empty_world
     = (inr TypeError, advance (length good) empty_world).
Proof.
  intros good rest run.
  assert (H : Forall2 (fun h pos => read_position h = inl pos) good [(0, 1)%Q])
    by (repeat constructor).
  split; [exact H |].
  exact (get_multiple_routes_missing_key grid_distance ticking_clock epoch_format
           0 0 good rest [(0, 1)%Q] empty_world H).
Defined.

Lemma end_navigation_twice_witness :
  let k := "nav_u1_1762196400.25"%string in
  let s := started_session grid_distance ticking_clock
             "u1" 0 0 0 1 "driving" empty_world in
  active_navigations world_started !! k = Some s
  /\ exists p1 w1 p2 w2 s2,
       end_navigation ticking_clock k world_started = (Return p1, w1)
       /\ end_navigation ticking_clock k w1 = (Return p2, w2)
       /\ dict_has "error" p2 = false
       /\ dict_get "status" p2 = Some (VStr "completed")
       /\ dict_get "duration_minutes" p1
          = Some (VInt ((ticking_clock (ticks world_started) - started_at s)
                        ÷ 60000000))
       /\ dict_get "duration_minutes" p2
          = Some (VInt ((ticking_clock (S (ticks world_started)) - started_at s)
                        ÷ 60000000))
       /\ active_navigations w2 !! k = Some s2
       /\ started_at s2 = started_at s
       /\ ended_at s2 = Some (ticking_clock (S (ticks world_started))).
Proof.
  intros k s.
  assert (H : active_navigations world_started !! k = Some s)
    by (vm_compute; reflexivity).
  split; [exact H |].
  exact (end_navigation_twice ticking_clock k world_started s H).
Defined.

Lemma update_navigation_accuracy_witness :
  let k := "nav_u1_1762196400.25"%string in
  let s := started_session grid_distance ticking_clock
             "u1" 0 0 0 1 "driving" empty_world in
  let measured :=
    calculate_distance grid_distance
      (mkLocation 0 (1 # 3) None)
      (mkLocation (fst (end_location (route s)))
                  (snd (end_location (route s))) None) in
  active_navigations world_started !! k = Some s
  /\ exists p w' shown,
       update_navigation grid_distance ticking_clock k 0 (1 # 3) world_started
       = (Return p, w')
       /\ dict_get "remaining_distance_km" p = Some (VFloat shown)
       /\ (Qabs (shown - distance_km measured) <= 1 # 200)%Q
       /\ dict_get "estimated_time_remaining_minutes" p
          = Some (VInt (estimated_travel_time_minutes measured)).
Proof.
  intros k s measured.
  assert (H : active_navigations world_started !! k = Some s)
    by (vm_compute; reflexivity).
  split; [exact H |].
  exact (update_navigation_accuracy grid_distance ticking_clock k 0 (1 # 3)
           world_started s H).
Defined.

Lemma update_navigation_at_destination_witness :
  let k := "nav_u1_1762196400.25"%string in
  let s := started_session grid_distance ticking_clock
             "u1" 0 0 0 1 "driving" empty_world in
  let lat := fst (end_location (route s)) in
  let lon := snd (end_location (route s)) in
  (active_navigations world_started !! k = Some s
   /\ (grid_distance lat lon lat lon == 0)%Q)
  /\ exists p w' s' shown,
       update_navigation grid_distance ticking_clock k lat lon world_started
       = (Return p, w')
       /\ dict_get "remaining_distance_km" p = Some (VFloat shown)
       /\ (shown == 0)%Q
       /\ dict_get "estimated_time_remaining_minutes" p = Some (VInt 0)
       /\ dict_get "status" p = Some (VStr "active")
       /\ dict_get "current_step" p = Some (VInt (current_step s))
       /\ active_navigations w' !! k = Some s'
       /\ status s' = status s
       /\ ended_at s' = ended_at s.
Proof.
  intros k s lat lon.
  assert (H : active_navigations world_started !! k = Some s)
    by (vm_compute; reflexivity).
  assert (H0 : (grid_distance lat lon lat lon == 0)%Q) by reflexivity.
  split; [exact (conj H H0) |].
  exact (update_navigation_at_destination grid_distance ticking_clock k
           world_started s H H0).
Defined.
